(** * Differentiable mutables of mmrazor: a shallow embedding

    Source: [mmrazor/models/mutables/mutable_module/diff_mutable_module.py].

    The Python classes [DiffMutableModule], [DiffMutableOP],
    [OneHotMutableOP] and [DiffChoiceRoute] are embedded as records (the
    attributes of an instance) and as computations in a state-and-exception
    monad that threads the instance ([self]), the state of the surrounding
    program that candidate modules may touch, and a log of the candidates
    that were invoked. *)

From Stdlib Require Import QArith.
From stdpp Require Import gmap strings list fin_maps.

Close Scope Q_scope.

(** ** Python exceptions and results *)

Inductive exn : Type :=
  | AssertionError
  | AttributeError
  | KeyError
  | IndexError
  | TypeError
  | BuildError.

Inductive result (A : Type) : Type :=
  | Ok (a : A)
  | Raise (e : exn).
Arguments Ok {A} a.
Arguments Raise {A} e.

Definition is_ok {A} (r : result A) : bool :=
  match r with Ok _ => true | Raise _ => false end.

(** ** The PyTorch operations the file relies on

    [torch], [torch.nn.functional] and [torch.distributions] are external.
    Tensor entries are rationals (every finite float is one); what the
    library computes with them is left open:
    - [value] is what a candidate module returns and what [sum] adds up,
      [py_zero] is the integer [0] that Python's [sum] starts from,
      [py_add] is [+] and [py_mul] is [prob * out];
    - [softmax] is [F.softmax(., -1)] on a one-dimensional tensor;
    - [argsort] is [torch.argsort] followed by [.cpu().numpy().tolist()];
    - [one_hot_sample] is [OneHotCategorical(probs=.).sample()], which draws
      from the generator state kept in [world]. *)

Class Torch : Type := {
  tensor : Type;
  value : Type;
  world : Type;
  py_zero : value;
  py_add : value → value → value;
  py_mul : Q → value → value;
  softmax : list Q → list Q;
  argsort : list Q → list nat;
  one_hot_sample : list Q → world → list Q * world;
}.

(** [prob > 0.] on a tensor entry. *)
Definition Qgt0 (q : Q) : bool := negb (Qle_bool q 0).

(** ** Ordered dictionaries

    [nn.ModuleDict] and [dict] keep insertion order; they are association
    lists whose keys are pairwise distinct ([dict_wf]). *)

Section dict.
Context {A : Type}.
Implicit Types (d : list (string * A)) (k : string).

Definition keys d : list string := d.*1.
Definition values d : list A := d.*2.

Definition dict_wf d : Prop := NoDup (keys d).

(** [d[k]] *)
Fixpoint dict_get k d : option A :=
  match d with
  | [] => None
  | (k', a) :: d' => if decide (k' = k) then Some a else dict_get k d'
  end.

(** [d.pop(k)]: the removed value and the remaining dictionary, or
    [None] when [k] is not a key (Python raises [KeyError]). *)
Fixpoint dict_pop k d : option (A * list (string * A)) :=
  match d with
  | [] => None
  | (k', a) :: d' =>
      if decide (k' = k) then Some (a, d')
      else match dict_pop k d' with
           | Some (v, r) => Some (v, (k', a) :: r)
           | None => None
           end
  end.

(** [d[k] = a]: an existing key keeps its position. *)
Fixpoint dict_set k (a : A) d : list (string * A) :=
  match d with
  | [] => [(k, a)]
  | (k', a') :: d' =>
      if decide (k' = k) then (k, a) :: d' else (k', a') :: dict_set k a d'
  end.
End dict.

(** ** Python's [sum] and slicing *)

(** [sum(outputs)]: starts from the integer [0] and adds from the left. *)
Definition py_sum `{Torch} (outputs : list value) : value :=
  fold_left py_add outputs py_zero.

(** [l[:n]] for a Python integer [n]. *)
Definition py_slice_to {A} (l : list A) (n : Z) : list A :=
  if decide (0 ≤ n)%Z then take (Z.to_nat n) l
  else take (length l - Z.to_nat (- n)) l.

(** ** The state-and-exception monad of method calls *)

Section monad.
Context `{Torch}.

(** A candidate module: [module(x)] may read and write the state of the
    surrounding program and may raise. *)
Definition nn_Module : Type := tensor → world → result value * world.

Record pystate (Self : Type) : Type := PyState {
  self : Self;
  env : world;
  calls : list string;
}.
Global Arguments PyState {Self} _ _ _.
Global Arguments self {Self} _.
Global Arguments env {Self} _.
Global Arguments calls {Self} _.

Definition M (Self A : Type) : Type := pystate Self → result A * pystate Self.

Definition ret {Self A} (a : A) : M Self A := λ s, (Ok a, s).

Definition bind {Self A B} (c : M Self A) (k : A → M Self B) : M Self B :=
  λ s, match c s with
       | (Ok a, s') => k a s'
       | (Raise e, s') => (Raise e, s')
       end.

Definition raise {Self A} (e : exn) : M Self A := λ s, (Raise e, s).

(** [assert b] *)
Definition py_assert {Self} (b : bool) : M Self unit :=
  if b then ret tt else raise AssertionError.

(** Reading an attribute of [self], and updating [self]. *)
Definition get {Self A} (f : Self → A) : M Self A := λ s, (Ok (f (self s)), s).

Definition modify {Self} (f : Self → Self) : M Self unit :=
  λ s, (Ok tt, PyState (f (self s)) (env s) (calls s)).

(** [module(x)] for the candidate registered under [name]; the call is
    recorded in [calls]. *)
Definition invoke {Self} (name : string) (module : nn_Module) (x : tensor)
  : M Self value :=
  λ s, let '(r, w) := module x (env s) in
       (r, PyState (self s) w (calls s ++ [name])).
End monad.

Notation "'let!' x ':=' c 'in' k" := (bind c (λ x, k))
  (at level 10, x pattern, c at level 100, k at level 200).

Section loops.
Context `{Torch} {Self : Type}.

(** A [for] loop over [items] that updates a local variable [acc]. *)
Fixpoint for_fold {A B} (items : list A) (acc : B)
    (body : B → A → M Self B) : M Self B :=
  match items with
  | [] => ret acc
  | a :: items' => let! acc' := body acc a in for_fold items' acc' body
  end.

(** A [for] loop run for its effects only. *)
Definition for_each {A} (items : list A) (body : A → M Self unit)
  : M Self unit :=
  for_fold items tt (λ _ a, body a).

(** A list comprehension [[f(a) for a in items]]. *)
Definition comprehension {A B} (items : list A) (f : A → M Self B)
  : M Self (list B) :=
  for_fold items [] (λ out a, let! b := f a in ret (out ++ [b])).
End loops.

(** ** [BaseMutable]: the mode flag *)

Module BaseMutable.

(** The attribute [_is_fixed] of an instance and its assignment. *)
Class attrs (Self : Type) : Type := {
  _is_fixed : Self → bool;
  set__is_fixed : bool → Self → Self;
}.

Section props.
Context `{Torch} {Self : Type} `{!attrs Self}.

(** Modelled from the spec: the property [is_fixed] of the base class
    [BaseMutable] (mmrazor/models/mutables/base_mutable.py, not part of
    the sources at hand). The getter reads the mode flag. *)
Definition is_fixed : M Self bool := get _is_fixed.

(** Modelled from the spec: the setter of the property [is_fixed] of
    [BaseMutable]. The flag moves from false to true once and is never
    reset; assigning to it on a fixed instance is an error. *)
Definition set_is_fixed (b : bool) : M Self unit :=
  let! fixed := get _is_fixed in
  if fixed then raise AttributeError else modify (set__is_fixed b).
End props.
End BaseMutable.

(** ** [DiffMutableModule]: the abstract base class *)

Module DiffMutableModule.

(** The abstract methods a concrete class provides. [In] is the type of
    the argument [x] of the forward methods. *)
Class methods `{Torch} (Self In : Type) : Type := {
  forward_fixed : In → M Self value;
  forward_all : In → M Self value;
  forward_arch_param : In → option (list Q) → M Self value;
}.

Section base.
Context `{Torch} {Self In : Type}.
Context `{!BaseMutable.attrs Self} `{!methods Self In}.

Definition forward (x : In) (arch_param : option (list Q)) : M Self value :=
  let! fixed := BaseMutable.is_fixed in
  if fixed then forward_fixed x
  else forward_arch_param x arch_param.

(** [F.softmax(arch_param, -1)]. With [arch_param = None] the call fails
    inside PyTorch ([None] has no attribute [softmax]). *)
Definition compute_arch_probs (arch_param : option (list Q))
  : M Self (list Q) :=
  match arch_param with
  | Some p => ret (softmax p)
  | None => raise AttributeError
  end.
End base.
End DiffMutableModule.

(** The argument of [DiffMutableOP.fix_chosen]: [Union[str, List[str]]]. *)
Inductive str_or_list : Type :=
  | PyStr (s : string)
  | PyList (l : list string).

(** [if isinstance(chosen, str): chosen = [chosen]] *)
Definition normalize_chosen (chosen : str_or_list) : list string :=
  match chosen with
  | PyStr s => [s]
  | PyList l => l
  end.

(** ** [DiffMutableOP] and its subclass [OneHotMutableOP] *)

Module DiffMutableOP.

(** The class of an instance, for the dispatch of overridden methods. *)
Inductive cls : Type := IsDiffMutableOP | IsOneHotMutableOP.

Record t `{Torch} : Type := Build {
  class_of : cls;
  _candidates : list (string * nn_Module);
  _is_fixed : bool;
  _chosen : option (list string);
  arch_weights : option (list Q);
}.

Section defs.
Context `{Torch}.

Definition set__candidates (d : list (string * nn_Module)) (o : t) : t :=
  Build _ (class_of o) d (_is_fixed o) (_chosen o) (arch_weights o).
Definition set__is_fixed (b : bool) (o : t) : t :=
  Build _ (class_of o) (_candidates o) b (_chosen o) (arch_weights o).
Definition set__chosen (c : option (list string)) (o : t) : t :=
  Build _ (class_of o) (_candidates o) (_is_fixed o) c (arch_weights o).
Definition set_arch_weights (w : option (list Q)) (o : t) : t :=
  Build _ (class_of o) (_candidates o) (_is_fixed o) (_chosen o) w.

Global Instance attrs : BaseMutable.attrs t := {|
  BaseMutable._is_fixed := _is_fixed;
  BaseMutable.set__is_fixed := set__is_fixed;
|}.

(** [self._candidates[name]] *)
Definition getitem (name : string) : M t nn_Module :=
  let! d := get _candidates in
  match dict_get name d with
  | Some module => ret module
  | None => raise KeyError
  end.

(** [self._candidates.pop(name)] *)
Definition pop (name : string) : M t unit :=
  let! d := get _candidates in
  match dict_pop name d with
  | Some (_, d') => modify (set__candidates d')
  | None => raise KeyError
  end.

Definition choices : M t (list string) :=
  get (λ o, keys (_candidates o)).

(** [sum(self._candidates[choice](x) for choice in self._chosen)]:
    the generator is consumed by [sum], one lookup and one call per
    name, added to the running total. Iterating [None] is a
    [TypeError]. *)
Definition forward_fixed (x : tensor) : M t value :=
  let! chosen := get _chosen in
  match chosen with
  | None => raise TypeError
  | Some chosen =>
      for_fold chosen py_zero (λ total choice,
        let! module := getitem choice in
        let! out := invoke choice module x in
        ret (py_add total out))
  end.

Definition forward_all (x : tensor) : M t value :=
  let! candidates := get _candidates in
  let! outputs :=
    for_fold candidates [] (λ outputs '(name, op),
      let! out := invoke name op x in
      ret (outputs ++ [out])) in
  ret (py_sum outputs).

(** The loop shared by the two weighted forwards:
    [for prob, module in zip(probs, self._candidates.values())]. *)
Definition weighted_outputs (probs : list Q)
    (candidates : list (string * nn_Module)) (x : tensor)
  : M t (list value) :=
  for_fold (zip probs candidates) [] (λ outputs '(prob, (name, module)),
    if Qgt0 prob then
      let! out := invoke name module x in
      ret (outputs ++ [py_mul prob out])
    else ret outputs).

Definition forward_arch_param (x : tensor) (arch_param : option (list Q))
  : M t value :=
  match arch_param with
  | None => forward_all x
  | Some _ =>
      let! probs := DiffMutableModule.compute_arch_probs arch_param in
      let! candidates := get _candidates in
      let! outputs := weighted_outputs probs candidates x in
      ret (py_sum outputs)
  end.

Definition fix_chosen (chosen : str_or_list) : M t unit :=
  let! fixed := BaseMutable.is_fixed in
  if fixed then raise AttributeError
  else
    let chosen := normalize_chosen chosen in
    let! cs := choices in
    let! _ := for_each cs (λ c,
                if bool_decide (c ∉ chosen) then pop c else ret tt) in
    let! _ := modify (set__chosen (Some chosen)) in
    BaseMutable.set_is_fixed true.
End defs.
End DiffMutableOP.

Module OneHotMutableOP.
Import DiffMutableOP.

Section defs.
Context `{Torch}.

(** [OneHotCategorical(...).sample()]; with [random_sample] the
    distribution is built from [torch.ones_like(arch_param)]. *)
Definition sample_weights (arch_param probs : list Q)
    (random_sample : bool) : M t (list Q) :=
  λ s,
    let dist := if random_sample then (λ _, 1%Q) <$> arch_param
                else probs in
    let '(w, e) := one_hot_sample dist (env s) in
    (Ok w, PyState (self s) e (calls s)).

(** [self.arch_weights.requires_grad_()] changes no value. *)
Definition forward_arch_param (x : tensor) (arch_param : option (list Q))
  : M t value :=
  match arch_param with
  | None => forward_all x
  | Some p =>
      let! probs := DiffMutableModule.compute_arch_probs arch_param in
      let! w := sample_weights p probs false in
      let! _ := modify (set_arch_weights (Some w)) in
      let! weights := get arch_weights in
      let! candidates := get _candidates in
      let! outputs := weighted_outputs (default [] weights) candidates x in
      ret (py_sum outputs)
  end.

(** Method resolution for the two classes: [OneHotMutableOP] overrides
    [forward_arch_param] only. *)
Global Instance methods : DiffMutableModule.methods t tensor := {|
  DiffMutableModule.forward_fixed := DiffMutableOP.forward_fixed;
  DiffMutableModule.forward_all := DiffMutableOP.forward_all;
  DiffMutableModule.forward_arch_param := λ x arch_param,
    let! c := get class_of in
    match c with
    | IsDiffMutableOP => DiffMutableOP.forward_arch_param x arch_param
    | IsOneHotMutableOP => forward_arch_param x arch_param
    end;
|}.
End defs.
End OneHotMutableOP.

(** ** [DiffChoiceRoute] *)

Module DiffChoiceRoute.

Record t `{Torch} : Type := Build {
  _candidates : list (string * nn_Module);
  _is_fixed : bool;
  _chosen : option (list string);
  _unfixed_choices : option (list string);
  _with_arch_param : bool;
  num_chosen : Z;
}.

Section defs.
Context `{Torch}.

Definition set__candidates (d : list (string * nn_Module)) (o : t) : t :=
  Build _ d (_is_fixed o) (_chosen o) (_unfixed_choices o)
    (_with_arch_param o) (num_chosen o).
Definition set__is_fixed (b : bool) (o : t) : t :=
  Build _ (_candidates o) b (_chosen o) (_unfixed_choices o)
    (_with_arch_param o) (num_chosen o).
Definition set__chosen (c : option (list string)) (o : t) : t :=
  Build _ (_candidates o) (_is_fixed o) c (_unfixed_choices o)
    (_with_arch_param o) (num_chosen o).
Definition set__unfixed_choices (c : option (list string)) (o : t) : t :=
  Build _ (_candidates o) (_is_fixed o) (_chosen o) c
    (_with_arch_param o) (num_chosen o).

Global Instance attrs : BaseMutable.attrs t := {|
  BaseMutable._is_fixed := _is_fixed;
  BaseMutable.set__is_fixed := set__is_fixed;
|}.

(** [__init__(edges, num_chsoen=2, with_arch_param=False)]; an omitted
    argument is [None] here. The base constructor leaves [_chosen]
    unset ([None]); [_unfixed_choices] does not exist yet. *)
Definition __init__ (edges : list (string * nn_Module))
    (num_chsoen : option Z) (with_arch_param : option bool) : result t :=
  if bool_decide (1 ≤ length edges) then
    Ok (Build _ edges false None None
          (default false with_arch_param) (default 2%Z num_chsoen))
  else Raise AssertionError.

Definition getitem (name : string) : M t nn_Module :=
  let! d := get _candidates in
  match dict_get name d with
  | Some module => ret module
  | None => raise KeyError
  end.

Definition pop (name : string) : M t unit :=
  let! d := get _candidates in
  match dict_pop name d with
  | Some (_, d') => modify (set__candidates d')
  | None => raise KeyError
  end.

Definition choices : M t (list string) :=
  get (λ o, keys (_candidates o)).

(** Reading [self._unfixed_choices] before it was ever assigned is an
    [AttributeError]. *)
Definition forward_fixed (inputs : list tensor) : M t value :=
  let! chosen := get _chosen in
  let! _ := py_assert (bool_decide (is_Some chosen)) in
  let! unfixed := get _unfixed_choices in
  match unfixed with
  | None => raise AttributeError
  | Some unfixed_choices =>
      let! outputs :=
        for_fold (zip unfixed_choices inputs) [] (λ outputs '(choice, x),
          let! chosen := get _chosen in
          if bool_decide (choice ∈ default [] chosen) then
            let! module := getitem choice in
            let! out := invoke choice module x in
            ret (outputs ++ [out])
          else ret outputs) in
      ret (py_sum outputs)
  end.

Definition forward_all (x : list tensor) : M t value :=
  let! candidates := get _candidates in
  let! _ := py_assert (bool_decide (length x = length candidates)) in
  let! outputs :=
    for_fold (zip candidates x) [] (λ outputs '((name, op), input),
      let! out := invoke name op input in
      ret (outputs ++ [out])) in
  ret (py_sum outputs).

Definition forward_arch_param (x : list tensor)
    (arch_param : option (list Q)) : M t value :=
  let! candidates := get _candidates in
  let! _ := py_assert (bool_decide (length x = length candidates)) in
  let! with_arch_param := get _with_arch_param in
  if with_arch_param then
    let! probs := DiffMutableModule.compute_arch_probs arch_param in
    let! outputs :=
      for_fold (zip probs (zip candidates x)) []
        (λ outputs '(prob, ((name, module), input)),
          if Qgt0 prob then
            let! out := invoke name module input in
            ret (outputs ++ [py_mul prob out])
          else ret outputs) in
    ret (py_sum outputs)
  else forward_all x.

Global Instance methods : DiffMutableModule.methods t (list tensor) := {|
  DiffMutableModule.forward_fixed := forward_fixed;
  DiffMutableModule.forward_all := forward_all;
  DiffMutableModule.forward_arch_param := forward_arch_param;
|}.

Definition fix_chosen (chosen : list string) : M t unit :=
  let! cs := choices in
  let! _ := modify (set__unfixed_choices (Some cs)) in
  let! fixed := BaseMutable.is_fixed in
  if fixed then raise AttributeError
  else
    let! cs := choices in
    let! _ := for_each cs (λ c,
                if bool_decide (c ∉ chosen) then pop c else ret tt) in
    let! _ := modify (set__chosen (Some chosen)) in
    BaseMutable.set_is_fixed true.

(** [self.choices[i]] for an index produced by [argsort]. *)
Definition choice_at (i : nat) : M t string :=
  let! cs := choices in
  match cs !! i with
  | Some c => ret c
  | None => raise IndexError
  end.

Definition sample_choice (arch_param : list Q) : M t (list string) :=
  let sort_idx := argsort (Qopp <$> arch_param) in
  let! n := get num_chosen in
  let choice_idx := py_slice_to sort_idx n in
  comprehension choice_idx choice_at.
End defs.
End DiffChoiceRoute.

(** ** Construction of a [DiffMutableOP]

    The candidate configurations are dictionaries owned by the caller: the
    argument [candidates] maps a name to a reference into the caller's
    store, and [_build_ops] updates the referenced dictionaries in place.
    A configuration is a finite map; [cfg.update(kw)] is [kw ∪ cfg], where
    the entries of [kw] win. *)

(** The registry [MODELS] of mmrazor (mmrazor/registry, not part of the
    sources at hand): [MODELS.build(cfg)] reads a configuration and returns
    a module or raises. *)
Class Registry `{Torch} : Type := {
  cfg_value : Type;
  MODELS_build : gmap string cfg_value → result nn_Module;
}.

Module DiffMutableOP_init.
Import DiffMutableOP.

Section defs.
Context `{Registry}.

Abbreviation cfg := (gmap string cfg_value).
Abbreviation store := (gmap nat (gmap string cfg_value)).

(** [op_cfg.update(module_kwargs)] on the dictionary at [ref]. *)
Definition update_cfg (ref : nat) (module_kwargs : cfg) (h : store)
  : store :=
  alter (λ op_cfg, module_kwargs ∪ op_cfg) ref h.

(** The loop of [_build_ops]; [ops] is the [nn.ModuleDict] built so
    far. *)
Fixpoint build_loop (items : list (string * nat))
    (module_kwargs : option cfg) (ops : list (string * nn_Module))
    (h : store) : result (list (string * nn_Module)) * store :=
  match items with
  | [] => (Ok ops, h)
  | (name, op_cfg) :: items' =>
      if bool_decide (name ∈ keys ops) then (Raise AssertionError, h)
      else
        let h1 := match module_kwargs with
                  | Some kw => update_cfg op_cfg kw h
                  | None => h
                  end in
        match MODELS_build (h1 !!! op_cfg) with
        | Ok module => build_loop items' module_kwargs
                         (dict_set name module ops) h1
        | Raise e => (Raise e, h1)
        end
  end.

Definition _build_ops (candidates : list (string * nat))
    (module_kwargs : option cfg) (h : store)
  : result (list (string * nn_Module)) * store :=
  build_loop candidates module_kwargs [] h.

(** [cls(candidates, module_kwargs)]. The constructor of the base class
    [MutableModule] (not part of the sources at hand) keeps
    [module_kwargs] as [self.module_kwargs], which is read back
    unchanged for [_build_ops]. *)
Definition __init__ (c : cls) (candidates : list (string * nat))
    (module_kwargs : option cfg) (h : store) : result t * store :=
  if bool_decide (1 ≤ length candidates) then
    match _build_ops candidates module_kwargs h with
    | (Ok ops, h') => (Ok (Build _ c ops false None None), h')
    | (Raise e, h') => (Raise e, h')
    end
  else (Raise AssertionError, h).
End defs.
End DiffMutableOP_init.

(** ** Sums of candidate outputs, as the specification words them

    A forward pass is described by the list of its terms: which candidate
    is applied to which input, and with which weight ([None]: the output
    enters the sum as it is). [eval_terms] applies the candidates from left
    to right, threading the state of the surrounding program, and stops at
    the first one that raises; [sum_of_terms] is the forward pass that
    returns Python's [sum] of the resulting values. *)

Section terms.
Context `{Torch}.

Record term : Type := Term {
  t_name : string;
  t_module : nn_Module;
  t_input : tensor;
  t_weight : option Q;
}.

Definition term_out (t : term) (out : value) : value :=
  match t_weight t with
  | Some prob => py_mul prob out
  | None => out
  end.

Fixpoint eval_terms (ts : list term) (w : world)
  : result (list value) * world * list string :=
  match ts with
  | [] => (Ok [], w, [])
  | t :: ts' =>
      match t_module t (t_input t) w with
      | (Ok out, w1) =>
          match eval_terms ts' w1 with
          | (Ok vs, w2, log) => (Ok (term_out t out :: vs), w2, t_name t :: log)
          | (Raise e, w2, log) => (Raise e, w2, t_name t :: log)
          end
      | (Raise e, w1) => (Raise e, w1, [t_name t])
      end
  end.

Definition sum_of_terms {Self} (ts : list term) : M Self value :=
  λ s, match eval_terms ts (env s) with
       | (Ok vs, w, log) => (Ok (py_sum vs), PyState (self s) w (calls s ++ log))
       | (Raise e, w, log) => (Raise e, PyState (self s) w (calls s ++ log))
       end.

(** The weighted sum over the candidates, in insertion order: candidate
    number [i] enters with weight [probs[i]] when that entry exists and is
    strictly positive. *)
Definition weighted_terms (probs : list Q)
    (candidates : list (string * nn_Module)) (x : tensor) : list term :=
  omap (λ '(i, (name, module)),
          match probs !! i with
          | Some prob => if Qgt0 prob then Some (Term name module x (Some prob))
                         else None
          | None => None
          end)
       (imap pair candidates).

(** The unweighted sum over a sequence of chosen names: each name stands
    for the candidate registered under it in [candidates]. *)
Definition chosen_terms (candidates : list (string * nn_Module))
    (chosen : list string) (x : tensor) : list term :=
  omap (λ name, (λ module, Term name module x None)
                  <$> dict_get name candidates) chosen.

(** The unweighted sum over the chosen edges of a route: every edge of the
    full ordering whose name is chosen, applied to the input at the edge's
    own position. *)
Definition chosen_edge_terms (edges : list (string * nn_Module))
    (chosen : list string) (inputs : list tensor) : list term :=
  omap (λ '(i, (name, module)),
          match inputs !! i with
          | Some x => if bool_decide (name ∈ chosen)
                      then Some (Term name module x None) else None
          | None => None
          end)
       (imap pair edges).

(** A module that returns on every input. *)
Definition never_raises (module : nn_Module) : Prop :=
  ∀ x w, is_ok (module x w).1 = true.
End terms.

(** What [torch.argsort(t)] promises of its result: a permutation of the
    positions of [t] along which the entries ascend. The order of equal
    entries is not determined. *)
Definition argsort_spec (t : list Q) (idx : list nat) : Prop :=
  idx ≡ₚ seq 0 (length t) ∧
  ∀ i j a b, i < j → idx !! i = Some a → idx !! j = Some b →
    (nth a t 0 <= nth b t 0)%Q.

(** ** A computable instance

    Tensors and values are rationals, the surrounding state counts the
    module calls. [saturated_softmax] puts all the weight on the first
    largest entry, which is what floating-point softmax returns once the
    other entries underflow; [stable_argsort] is one of the orders
    [torch.argsort] may return. The instance serves to run the model on
    concrete data. *)

Module Demo.

Fixpoint argmax_from (l : list Q) (i best : nat) (m : Q) : nat :=
  match l with
  | [] => best
  | q :: l' =>
      if Qle_bool q m then argmax_from l' (S i) best m
      else argmax_from l' (S i) i q
  end.

Definition argmax (l : list Q) : nat :=
  match l with
  | [] => 0
  | q :: l' => argmax_from l' 1 0 q
  end.

Definition one_hot (n i : nat) : list Q :=
  (λ j, if decide (j = i) then 1%Q else 0%Q) <$> seq 0 n.

Definition saturated_softmax (l : list Q) : list Q :=
  one_hot (length l) (argmax l).

Fixpoint insert_idx (ks : list Q) (i : nat) (sorted : list nat)
  : list nat :=
  match sorted with
  | [] => [i]
  | j :: rest =>
      if Qle_bool (nth j ks 0%Q) (nth i ks 0%Q)
      then j :: insert_idx ks i rest
      else i :: j :: rest
  end.

Definition stable_argsort (ks : list Q) : list nat :=
  fold_left (λ sorted i, insert_idx ks i sorted) (seq 0 (length ks)) [].

Global Instance torch : Torch := {|
  tensor := Q;
  value := Q;
  world := nat;
  py_zero := 0%Q;
  py_add := Qplus;
  py_mul := Qmult;
  softmax := saturated_softmax;
  argsort := stable_argsort;
  one_hot_sample := λ dist w, (saturated_softmax dist, S w);
|}.

(** The module [x ↦ a * x + b]; each call bumps the counter. *)
Definition affine (a b : Q) : nn_Module :=
  λ x w, (Ok (Qred (a * x + b)%Q), S w).

Definition edges : list (string * nn_Module) :=
  [("a"%string, affine 1 0); ("b"%string, affine 10 0);
   ("c"%string, affine 100 0)].

Definition route (with_arch_param : bool) : DiffChoiceRoute.t :=
  DiffChoiceRoute.Build _ edges false None None with_arch_param 2.

Definition op (c : DiffMutableOP.cls) : DiffMutableOP.t :=
  DiffMutableOP.Build _ c edges false None None.

Definition start {Self} (o : Self) : pystate Self := PyState o 0 [].

(** Configurations are maps from strings to strings; [MODELS.build]
    accepts a configuration that has a ["type"] entry. *)
Global Instance registry : Registry := {|
  cfg_value := string;
  MODELS_build := λ cfg,
    match cfg !! "type"%string with
    | Some _ => Ok (affine 1 0)
    | None => Raise BuildError
    end;
|}.

(** A caller's store with two configurations, the candidates that refer
    to them, and shared keyword arguments. *)
Definition configs : gmap nat (gmap string string) :=
  {[ 0 := {[ "type"%string := "conv"%string ]};
     1 := {[ "type"%string := "pool"%string; "k"%string := "old"%string ]} ]}.

Definition candidates : list (string * nat) :=
  [("a"%string, 0); ("b"%string, 1)].

Definition kwargs : gmap string string := {[ "k"%string := "v"%string ]}.
End Demo.

(** ** Further sums of terms *)

Section more_terms.
Context `{Torch}.

(** The dense sum of a [DiffMutableOP]: every candidate in insertion
    order, applied to the one input, with no weight. *)
Definition all_terms (candidates : list (string * nn_Module)) (x : tensor)
  : list term :=
  (λ '(name, module), Term name module x None) <$> candidates.

(** The dense sum of a route: edge number [i] applied to input number
    [i], for every position that has both. *)
Definition all_edge_terms (edges : list (string * nn_Module))
    (inputs : list tensor) : list term :=
  omap (λ '(i, (name, module)),
          (λ x, Term name module x None) <$> inputs !! i)
       (imap pair edges).

(** The weighted sum of a route: edge number [i] applied to input number
    [i] with weight [probs[i]], for every position that has all three and
    a strictly positive weight. *)
Definition weighted_edge_terms (probs : list Q)
    (edges : list (string * nn_Module)) (inputs : list tensor) : list term :=
  omap (λ '(i, (name, module)),
          match probs !! i, inputs !! i with
          | Some prob, Some x =>
              if Qgt0 prob then Some (Term name module x (Some prob))
              else None
          | _, _ => None
          end)
       (imap pair edges).
End more_terms.

(** ** [DiffMutableOP.sample_choice]

    [torch.argmax(t).item()] on a one-dimensional tensor is one more
    operation of PyTorch; [argmax_spec] is what it promises of its result:
    a position of [t] that holds a largest entry. *)

Class TorchArgmax : Type := {
  argmax : list Q → nat;
}.

Definition argmax_spec (t : list Q) (i : nat) : Prop :=
  i < length t ∧ ∀ j, j < length t → (nth j t 0 <= nth i t 0)%Q.

Module DiffMutableOP_sample.

(** [self.choices[torch.argmax(arch_param).item()]] *)
Definition sample_choice `{Torch} `{TorchArgmax} (arch_param : list Q)
  : M DiffMutableOP.t string :=
  let! cs := DiffMutableOP.choices in
  match cs !! argmax arch_param with
  | Some c => ret c
  | None => raise IndexError
  end.
End DiffMutableOP_sample.

(** ** [GumbelChoiceRoute]

    [F.gumbel_softmax(logits, tau, hard, dim=-1)] draws its noise from the
    generator state kept in [world]. *)

Class TorchGumbel `{Torch} : Type := {
  gumbel_softmax : list Q → Q → bool → world → list Q * world;
}.

Module GumbelChoiceRoute.

(** An instance of the subclass: the attributes of a [DiffChoiceRoute]
    and the two it adds. *)
Record t `{Torch} : Type := Build {
  route : DiffChoiceRoute.t;
  tau : Q;
  hard : bool;
}.

Section defs.
Context `{TorchGumbel}.

(** A method inherited from [DiffChoiceRoute], run on the attributes the
    subclass shares with it. *)
Definition inherited {A} (c : M DiffChoiceRoute.t A) : M t A :=
  λ s, let '(r, s') := c (PyState (route (self s)) (env s) (calls s)) in
       (r, PyState (Build _ (self s') (tau (self s)) (hard (self s)))
             (env s') (calls s')).

Global Instance attrs : BaseMutable.attrs t := {|
  BaseMutable._is_fixed := λ o, DiffChoiceRoute._is_fixed (route o);
  BaseMutable.set__is_fixed := λ b o,
    Build _ (DiffChoiceRoute.set__is_fixed b (route o)) (tau o) (hard o);
|}.

(** [__init__(edges, tau=1.0, hard=True, with_arch_param=False)]: the
    call of the parent constructor passes [edges] and [with_arch_param]
    and leaves [num_chsoen] out. *)
Definition __init__ (edges : list (string * nn_Module)) (tau : option Q)
    (hard : option bool) (with_arch_param : option bool) : result t :=
  match DiffChoiceRoute.__init__ edges None
          (Some (default false with_arch_param)) with
  | Ok r => Ok (Build _ r (default 1%Q tau) (default true hard))
  | Raise e => Raise e
  end.

(** [F.gumbel_softmax(arch_param, tau=self.tau, hard=self.hard, dim=-1)].
    With [arch_param = None] the call fails inside PyTorch
    ([torch.empty_like(None)]). *)
Definition compute_arch_probs (arch_param : option (list Q))
  : M t (list Q) :=
  match arch_param with
  | Some p =>
      λ s, let '(probs, e) :=
             gumbel_softmax p (tau (self s)) (hard (self s)) (env s) in
           (Ok probs, PyState (self s) e (calls s))
  | None => raise TypeError
  end.

Definition set_temperature (tau' : Q) : M t unit :=
  modify (λ o, Build _ (route o) tau' (hard o)).

Definition forward_fixed (inputs : list tensor) : M t value :=
  inherited (DiffChoiceRoute.forward_fixed inputs).

Definition forward_all (x : list tensor) : M t value :=
  inherited (DiffChoiceRoute.forward_all x).

(** The body of [DiffChoiceRoute.forward_arch_param], in which
    [self.compute_arch_probs] now is the method above. *)
Definition forward_arch_param (x : list tensor)
    (arch_param : option (list Q)) : M t value :=
  let! candidates := get (λ o, DiffChoiceRoute._candidates (route o)) in
  let! _ := py_assert (bool_decide (length x = length candidates)) in
  let! with_arch_param :=
    get (λ o, DiffChoiceRoute._with_arch_param (route o)) in
  if with_arch_param then
    let! probs := compute_arch_probs arch_param in
    let! outputs :=
      for_fold (zip probs (zip candidates x)) []
        (λ outputs '(prob, ((name, module), input)),
          if Qgt0 prob then
            let! out := invoke name module input in
            ret (outputs ++ [py_mul prob out])
          else ret outputs) in
    ret (py_sum outputs)
  else forward_all x.

Global Instance methods : DiffMutableModule.methods t (list tensor) := {|
  DiffMutableModule.forward_fixed := forward_fixed;
  DiffMutableModule.forward_all := forward_all;
  DiffMutableModule.forward_arch_param := forward_arch_param;
|}.

Definition fix_chosen (chosen : list string) : M t unit :=
  inherited (DiffChoiceRoute.fix_chosen chosen).

Definition sample_choice (arch_param : list Q) : M t (list string) :=
  inherited (DiffChoiceRoute.sample_choice arch_param).
End defs.
End GumbelChoiceRoute.

(** ** [DiffMutableModule.set_forward_args]

    [set_forward_args] replaces the attribute [forward] of the instance by
    [functools.partial(self.forward, arch_param=arch_param)]. A partial of
    a partial is flattened by [functools], the later keyword replacing the
    earlier one, so the instance carries at most one bound keyword. The
    bound value is the parameter object itself, not a copy: architecture
    parameters live in a store owned by the mutator and are named by
    reference; a call reads the store as it is at the time of the call.
    Calls pass [arch_param] by keyword or not at all. *)

Module ForwardArgs.

Record t (Self : Type) : Type := Build {
  obj : Self;
  forward_kwargs : option (option nat);
}.
Arguments Build {Self} _ _.
Arguments obj {Self} _.
Arguments forward_kwargs {Self} _.

Section defs.
Context `{Torch} {Self In : Type}.
Context `{!BaseMutable.attrs Self} `{!DiffMutableModule.methods Self In}.

(** A method of the class, run on the instance. *)
Definition method {A} (c : M Self A) : M (t Self) A :=
  λ s, let '(r, s') := c (PyState (obj (self s)) (env s) (calls s)) in
       (r, PyState (Build (self s') (forward_kwargs (self s)))
             (env s') (calls s')).

Definition set_forward_args (arch_param : option nat) : M (t Self) unit :=
  modify (λ o, Build (obj o) (Some arch_param)).

(** [self.forward(x)] when [explicit] is [None], and
    [self.forward(x, arch_param=a)] when it is [Some a]; [params] is the
    mutator's store at the time of the call. *)
Definition call_forward (params : gmap nat (list Q)) (x : In)
    (explicit : option (option nat)) : M (t Self) value :=
  let! bound := get forward_kwargs in
  let arch_param :=
    match explicit with
    | Some a => a
    | None => default None bound
    end in
  method (DiffMutableModule.forward x ((λ ref, params !!! ref) <$> arch_param)).
End defs.
End ForwardArgs.

(** The computable instance, continued: [argmax] is the first largest
    entry, and the Gumbel relaxation is run without noise at its
    [hard] limit. *)
Module DemoMore.

Global Instance torch_argmax : TorchArgmax := {| argmax := Demo.argmax |}.

Global Instance torch_gumbel : TorchGumbel := {|
  gumbel_softmax := λ logits tau hard w, (Demo.saturated_softmax logits, S w);
|}.

Definition gumbel (with_arch_param : bool) : GumbelChoiceRoute.t :=
  GumbelChoiceRoute.Build _ (Demo.route with_arch_param) 1%Q true.
End DemoMore.

(** * Properties *)

(** ** Loops and dictionaries *)

Section loop_facts.
Context `{Torch} {Self : Type}.

Lemma fold_left_snoc {A} (vs acc : list A) :
  fold_left (λ l v, l ++ [v]) vs acc = acc ++ vs.
Proof.
  revert acc. induction vs as [|v vs IH]; intros acc; simpl.
  - by rewrite app_nil_r.
  - rewrite IH, <- app_assoc. done.
Qed.

Lemma filter_everything {A} (P : A → Prop) `{!∀ a, Decision (P a)}
    (l : list A) :
  (∀ a, P a) → filter P l = l.
Proof.
  intros HP. induction l as [|a l IH]; [done|].
  rewrite filter_cons_True by done. by rewrite IH.
Qed.

Lemma filter_iff_elem {A} (P Q : A → Prop) `{!∀ a, Decision (P a)}
    `{!∀ a, Decision (Q a)} (l : list A) :
  (∀ a, a ∈ l → P a ↔ Q a) → filter P l = filter Q l.
Proof.
  induction l as [|a l IH]; intros HPQ; [done|].
  rewrite !filter_cons.
  assert (filter P l = filter Q l) as ->.
  { apply IH. intros b Hb. apply HPQ. by right. }
  destruct (decide (P a)) as [HP|HP], (decide (Q a)) as [HQ|HQ]; try done;
    exfalso; apply (HPQ a) in HP || apply (HPQ a) in HQ; try done; by left.
Qed.

Lemma pystate_eta (s : pystate Self) : PyState (self s) (env s) (calls s) = s.
Proof. by destruct s. Qed.

(** A loop whose body, on every item and on every state whose [self] is
    [o], either skips the item or invokes one candidate and stores the
    (weighted) output, runs the terms selected from the items. *)
Lemma for_fold_terms {A B} (o : Self) (sel : A → option term)
    (upd : B → value → B) (body : B → A → M Self B) (items : list A) :
  (∀ acc a s, a ∈ items → self s = o →
     body acc a s =
     match sel a with
     | Some t => (let! out := invoke (t_name t) (t_module t) (t_input t) in
                  ret (upd acc (term_out t out))) s
     | None => ret acc s
     end) →
  ∀ acc s, self s = o →
    for_fold items acc body s =
    match eval_terms (omap sel items) (env s) with
    | (Ok vs, w, log) =>
        (Ok (fold_left upd vs acc), PyState o w (calls s ++ log))
    | (Raise e, w, log) => (Raise e, PyState o w (calls s ++ log))
    end.
Proof.
  induction items as [|a items IH]; intros Hbody acc s Hs; simpl.
  - unfold ret. rewrite app_nil_r, <- Hs. by rewrite pystate_eta.
  - assert (∀ acc a' s, a' ∈ items → self s = o →
              body acc a' s =
              match sel a' with
              | Some t =>
                  (let! out := invoke (t_name t) (t_module t) (t_input t) in
                   ret (upd acc (term_out t out))) s
              | None => ret acc s
              end) as Hbody'.
    { intros ? ? ? ? ?. apply Hbody; [by right|done]. }
    specialize (IH Hbody').
    unfold bind at 1. rewrite (Hbody _ _ _ (list_elem_of_here _ _) Hs).
    destruct (sel a) as [t|]; simpl.
    + unfold bind, invoke, ret.
      destruct (t_module t (t_input t) (env s)) as [[out|e] w1]; simpl.
      * rewrite IH by done. simpl.
        destruct (eval_terms _ w1) as [[[vs|e] w2] log];
          simpl; by rewrite <- app_assoc.
      * by rewrite Hs.
    + unfold ret. by rewrite IH.
Qed.

(** When every selected module returns, the loop returns. *)
Lemma eval_terms_ok (ts : list term) (w : world) :
  Forall (λ t, never_raises (t_module t)) ts →
  ∃ vs w' log, eval_terms ts w = (Ok vs, w', log).
Proof.
  revert w. induction ts as [|t ts IH]; intros w Hts; simpl.
  - by eauto.
  - apply Forall_cons in Hts as [Ht Hts].
    specialize (Ht (t_input t) w).
    destruct (t_module t (t_input t) w) as [[out|e] w1]; [|done].
    destruct (IH w1 Hts) as (vs & w' & log & ->). by eauto.
Qed.

(** A comprehension over a function that only reads. *)
Lemma comprehension_pure {A B} (f : A → M Self B) (g : A → B)
    (items : list A) (s : pystate Self) :
  (∀ a, a ∈ items → f a s = (Ok (g a), s)) →
  comprehension items f s = (Ok (g <$> items), s).
Proof.
  unfold comprehension. intros Hf.
  assert (∀ acc, for_fold items acc
             (λ out a, let! b := f a in ret (out ++ [b])) s
           = (Ok (acc ++ (g <$> items)), s)) as Hloop.
  { induction items as [|a items IH]; intros acc; simpl.
    - by rewrite app_nil_r.
    - unfold bind at 1. unfold bind at 1.
      rewrite Hf by (by left). unfold ret at 1.
      rewrite IH; [by rewrite <- app_assoc|].
      intros ? ?. apply Hf. by right. }
  apply Hloop.
Qed.

(** Positions and zips. *)
Lemma omap_zip_l {A B C} (sel : A * B → option C) (l : list A) (xs : list B) :
  omap sel (zip l xs) = omap id (zip_with (λ a x, sel (a, x)) l xs).
Proof.
  revert xs. induction l as [|a l IH]; intros [|x xs]; simpl; try done.
  rewrite IH. done.
Qed.

Lemma omap_zip_r {A B C} (sel : B * A → option C) (l : list A) (xs : list B) :
  omap sel (zip xs l) = omap id (zip_with (λ a x, sel (x, a)) l xs).
Proof.
  revert xs. induction l as [|a l IH]; intros [|x xs]; simpl; try done.
  rewrite IH. done.
Qed.

Lemma omap_positions {A B C} (g : A → B → option C) (l : list A) :
  ∀ (pre xs : list B),
    omap (λ '(i, a), match (pre ++ xs) !! i with
                     | Some x => g a x
                     | None => None
                     end)
         (imap (λ i a, (length pre + i, a)) l)
    = omap id (zip_with g l xs).
Proof.
  induction l as [|a l IH]; intros pre xs; [done|].
  rewrite imap_cons. simpl.
  rewrite Nat.add_0_r, lookup_app_r, Nat.sub_diag by lia.
  destruct xs as [|x xs]; simpl.
  - clear IH. rewrite app_nil_r.
    assert (∀ k, omap (λ '(i, a0), match pre !! i with
                                   | Some x => g a0 x
                                   | None => None
                                   end)
                   (imap (λ i a0, (length pre + (k + i), a0)) l) = []) as Hnil.
    { induction l as [|b l IHl]; intros k; [done|].
      rewrite imap_cons. simpl.
      rewrite lookup_ge_None_2 by lia.
      rewrite <- (IHl (S k)). f_equal. apply imap_ext.
      intros i c _. simpl. f_equal. lia. }
    apply (Hnil 1).
  - assert (imap ((λ i a0, (length pre + i, a0)) ∘ S) l
            = imap (λ i a0, (length (pre ++ [x]) + i, a0)) l) as ->.
    { apply imap_ext. intros i c _. simpl. rewrite length_app. simpl.
      f_equal. lia. }
    replace (pre ++ x :: xs) with ((pre ++ [x]) ++ xs)
      by (by rewrite <- app_assoc).
    rewrite IH. done.
Qed.

Lemma omap_imap_zip {A B C} (g : A → B → option C) (l : list A)
    (xs : list B) :
  omap (λ '(i, a), match xs !! i with Some x => g a x | None => None end)
       (imap pair l)
  = omap id (zip_with g l xs).
Proof. apply (omap_positions g l [] xs). Qed.
End loop_facts.

Section dict_facts.
Context {A : Type}.
Implicit Types (d : list (string * A)) (k : string).

Lemma keys_filter (P : string → Prop) `{!∀ k, Decision (P k)} d :
  keys (filter (λ kv, P kv.1) d) = filter P (keys d).
Proof.
  unfold keys. induction d as [|[k a] d IH]; [done|].
  rewrite fmap_cons, !filter_cons. simpl.
  destruct (decide (P k)); [rewrite fmap_cons; simpl|]; by rewrite IH.
Qed.

Lemma keys_filter_sublist (P : string → Prop) `{!∀ k, Decision (P k)} d :
  sublist (keys (filter (λ kv, P kv.1) d)) (keys d).
Proof. rewrite keys_filter. apply sublist_filter. Qed.

Lemma dict_wf_filter (P : string → Prop) `{!∀ k, Decision (P k)} d :
  dict_wf d → dict_wf (filter (λ kv, P kv.1) d).
Proof.
  unfold dict_wf. intros Hd.
  eapply sublist_NoDup; [exact Hd|apply keys_filter_sublist].
Qed.

Lemma dict_get_filter (P : string → Prop) `{!∀ k, Decision (P k)} k d :
  P k → dict_get k (filter (λ kv, P kv.1) d) = dict_get k d.
Proof.
  intros Hk. induction d as [|[k' a] d IH]; [done|].
  rewrite filter_cons. simpl. destruct (decide (P k')) as [Hk'|Hk']; simpl.
  - destruct (decide (k' = k)); [done|apply IH].
  - destruct (decide (k' = k)) as [->|]; [done|apply IH].
Qed.

Lemma dict_get_Some_lookup d i k a :
  dict_wf d → d !! i = Some (k, a) → dict_get k d = Some a.
Proof.
  unfold dict_wf, keys. revert i.
  induction d as [|[k' a'] d IH]; intros i Hd Hi; [done|].
  rewrite fmap_cons in Hd. apply NoDup_cons in Hd as [Hnotin Hd].
  destruct i as [|i]; simpl in *.
  - simplify_eq. by rewrite decide_True.
  - destruct (decide (k' = k)) as [->|]; [|by eapply IH].
    exfalso. apply Hnotin. apply list_elem_of_fmap. exists (k, a).
    split; [done|]. by eapply list_elem_of_lookup_2.
Qed.

Lemma dict_get_is_Some d k : k ∈ keys d → is_Some (dict_get k d).
Proof.
  unfold keys. induction d as [|[k' a] d IH].
  - by intros ?%elem_of_nil.
  - rewrite fmap_cons, elem_of_cons. simpl.
    destruct (decide (k' = k)); [by eauto|]. intros [?|?]; [congruence|auto].
Qed.

Lemma dict_pop_filter d k :
  dict_wf d → k ∈ keys d →
  ∃ a, dict_pop k d = Some (a, filter (λ kv, kv.1 ≠ k) d).
Proof.
  unfold dict_wf, keys. induction d as [|[k' a'] d IH]; intros Hd Hk.
  - by apply elem_of_nil in Hk.
  - rewrite fmap_cons in Hd, Hk. apply NoDup_cons in Hd as [Hnotin Hd].
    simpl in *. rewrite filter_cons. simpl.
    destruct (decide (k' = k)) as [->|Hne].
    + exists a'. rewrite decide_False by tauto. f_equal. f_equal.
      clear IH Hk Hd. induction d as [|[k2 a2] d IH]; [done|].
      rewrite fmap_cons, not_elem_of_cons in Hnotin. simpl in *.
      destruct Hnotin as [? ?]. rewrite filter_cons. simpl.
      rewrite decide_True by congruence. f_equal. by apply IH.
    + apply elem_of_cons in Hk as [?|Hk]; [congruence|].
      destruct (IH Hd Hk) as [a ->]. exists a.
      by rewrite decide_True by done.
Qed.
End dict_facts.

(** ** The pruning loop of [fix_chosen]

    Both classes run [for c in self.choices: if c not in chosen:
    self._candidates.pop(c)] on their own record; the loop is analysed once,
    over the accessors of the record. *)

Section pruning.
Context `{Torch} {Self : Type}.
Variable cands : Self → list (string * nn_Module).
Variable setc : list (string * nn_Module) → Self → Self.
Variable pop : string → M Self unit.

Hypothesis pop_run : ∀ k s,
  pop k s = match dict_pop k (cands (self s)) with
            | Some (_, d') => (Ok tt, PyState (setc d' (self s)) (env s) (calls s))
            | None => (Raise KeyError, s)
            end.
Hypothesis cands_setc : ∀ d o, cands (setc d o) = d.
Hypothesis setc_setc : ∀ d d' o, setc d (setc d' o) = setc d o.
Hypothesis setc_cands : ∀ o, setc (cands o) o = o.

Lemma prune_partial (chosen cs : list string) : ∀ s,
  NoDup cs → dict_wf (cands (self s)) → cs ⊆ keys (cands (self s)) →
  for_each cs (λ c, if bool_decide (c ∉ chosen) then pop c else ret tt) s =
  (Ok tt,
   PyState (setc (filter (λ kv, kv.1 ∈ cs → kv.1 ∈ chosen) (cands (self s)))
              (self s))
     (env s) (calls s)).
Proof.
  unfold for_each.
  induction cs as [|c cs IH]; intros s Hcs Hwf Hsub; simpl.
  - unfold ret. rewrite <- (pystate_eta s) at 1. do 2 f_equal.
    rewrite <- (setc_cands (self s)) at 1. f_equal. symmetry.
    apply filter_everything. by intros kv ?%elem_of_nil.
  - apply NoDup_cons in Hcs as [Hc Hcs]. unfold bind at 1.
    case_bool_decide as Hch.
    + rewrite pop_run.
      destruct (dict_pop_filter (cands (self s)) c) as [a ->]; [done| |].
      { apply Hsub. by left. }
      simpl. rewrite (IH _ Hcs); simpl; rewrite ?cands_setc.
      * rewrite setc_setc, list_filter_filter. do 3 f_equal.
        apply list_filter_iff. intros [k m]; simpl. split.
        -- intros [Himp Hne] [->|Hin]%elem_of_cons; [done|auto].
        -- intros Himp. split.
           ++ intros Hin. apply Himp. by right.
           ++ intros Heq. subst k. apply Hch, Himp. by left.
      * exact (dict_wf_filter (λ k, k ≠ c) _ Hwf).
      * intros k Hk.
        pose proof (keys_filter (λ k, k ≠ c) (cands (self s))) as Hkeys.
        simpl in Hkeys. rewrite Hkeys.
        apply list_elem_of_filter. split; [by intros Heq; subst k|].
        apply Hsub. by right.
    + unfold ret. rewrite (IH _ Hcs); [|done|].
      * do 3 f_equal. apply list_filter_iff. intros [k m]; simpl. split.
        -- intros Himp [->|Hin]%elem_of_cons; [done|auto].
        -- intros Himp Hin. apply Himp. by right.
      * intros k Hk. apply Hsub. by right.
Qed.

(** Run over all the keys, the loop keeps exactly the chosen entries, in
    their order. *)
Lemma prune_all (chosen : list string) s :
  dict_wf (cands (self s)) →
  for_each (keys (cands (self s)))
    (λ c, if bool_decide (c ∉ chosen) then pop c else ret tt) s =
  (Ok tt,
   PyState (setc (filter (λ kv, kv.1 ∈ chosen) (cands (self s))) (self s))
     (env s) (calls s)).
Proof.
  intros Hwf. rewrite prune_partial; [|done|done|done].
  f_equal. f_equal. f_equal.
  apply filter_iff_elem. intros [k m] Hin; simpl. split; [|auto].
  intros Himp. apply Himp. unfold keys. apply list_elem_of_fmap.
  by exists (k, m).
Qed.
End pruning.

(** ** [fix_chosen] on an unfixed instance *)

Section fix_chosen_facts.
Context `{Torch}.

Lemma op_pop_run k (s : pystate DiffMutableOP.t) :
  DiffMutableOP.pop k s =
  match dict_pop k (DiffMutableOP._candidates (self s)) with
  | Some (_, d') =>
      (Ok tt, PyState (DiffMutableOP.set__candidates d' (self s))
                (env s) (calls s))
  | None => (Raise KeyError, s)
  end.
Proof.
  unfold DiffMutableOP.pop, bind, get. simpl.
  by destruct (dict_pop k _) as [[? ?]|].
Qed.

Lemma route_pop_run k (s : pystate DiffChoiceRoute.t) :
  DiffChoiceRoute.pop k s =
  match dict_pop k (DiffChoiceRoute._candidates (self s)) with
  | Some (_, d') =>
      (Ok tt, PyState (DiffChoiceRoute.set__candidates d' (self s))
                (env s) (calls s))
  | None => (Raise KeyError, s)
  end.
Proof.
  unfold DiffChoiceRoute.pop, bind, get. simpl.
  by destruct (dict_pop k _) as [[? ?]|].
Qed.

(** The instance a [DiffMutableOP] becomes when it is fixed. *)
Lemma op_fix_chosen_run (o : DiffMutableOP.t) chosen w log :
  dict_wf (DiffMutableOP._candidates o) →
  DiffMutableOP._is_fixed o = false →
  DiffMutableOP.fix_chosen chosen (PyState o w log) =
  (Ok tt,
   PyState
     (DiffMutableOP.Build _ (DiffMutableOP.class_of o)
        (filter (λ kv, kv.1 ∈ normalize_chosen chosen)
           (DiffMutableOP._candidates o))
        true (Some (normalize_chosen chosen)) (DiffMutableOP.arch_weights o))
     w log).
Proof.
  intros Hwf Hunfixed.
  unfold DiffMutableOP.fix_chosen, BaseMutable.is_fixed,
    BaseMutable.set_is_fixed, DiffMutableOP.choices.
  cbv zeta. generalize (normalize_chosen chosen). intros names.
  unfold bind at 1. unfold get at 1. simpl. rewrite Hunfixed.
  unfold bind at 1. unfold get at 1. simpl.
  unfold bind at 1.
  pose proof (prune_all DiffMutableOP._candidates
                DiffMutableOP.set__candidates DiffMutableOP.pop op_pop_run)
    as Hprune.
  specialize (Hprune (λ _ _, eq_refl) (λ _ _ _, eq_refl)).
  specialize (Hprune (λ o, match o with DiffMutableOP.Build _ _ _ _ _ _ =>
                                     eq_refl end)).
  specialize (Hprune names (PyState o w log) Hwf).
  simpl in Hprune. rewrite Hprune.
  unfold bind, modify, get. simpl. by rewrite Hunfixed.
Qed.

(** The instance a [DiffChoiceRoute] becomes when it is fixed. *)
Lemma route_fix_chosen_run (r : DiffChoiceRoute.t) chosen w log :
  dict_wf (DiffChoiceRoute._candidates r) →
  DiffChoiceRoute._is_fixed r = false →
  DiffChoiceRoute.fix_chosen chosen (PyState r w log) =
  (Ok tt,
   PyState
     (DiffChoiceRoute.Build _
        (filter (λ kv, kv.1 ∈ chosen) (DiffChoiceRoute._candidates r))
        true (Some chosen) (Some (keys (DiffChoiceRoute._candidates r)))
        (DiffChoiceRoute._with_arch_param r) (DiffChoiceRoute.num_chosen r))
     w log).
Proof.
  intros Hwf Hunfixed.
  unfold DiffChoiceRoute.fix_chosen, BaseMutable.is_fixed,
    BaseMutable.set_is_fixed, DiffChoiceRoute.choices.
  unfold bind at 1. unfold get at 1. simpl.
  unfold bind at 1. unfold modify at 1. simpl.
  unfold bind at 1. unfold get at 1. simpl. rewrite Hunfixed.
  unfold bind at 1. unfold get at 1. simpl.
  unfold bind at 1.
  pose proof (prune_all DiffChoiceRoute._candidates
                DiffChoiceRoute.set__candidates DiffChoiceRoute.pop
                route_pop_run) as Hprune.
  specialize (Hprune (λ _ _, eq_refl) (λ _ _ _, eq_refl)).
  specialize (Hprune (λ o, match o with DiffChoiceRoute.Build _ _ _ _ _ _ _ =>
                                     eq_refl end)).
  specialize (Hprune chosen
    (PyState (DiffChoiceRoute.set__unfixed_choices
                (Some (keys (DiffChoiceRoute._candidates r))) r) w log) Hwf).
  simpl in Hprune. rewrite Hprune.
  unfold bind, modify, get. simpl. by rewrite Hunfixed.
Qed.

(** What pruning leaves, read off the list of keys. *)
Lemma pruned_keys (d : list (string * nn_Module)) (chosen : list string) :
  dict_wf d → chosen ⊆ keys d →
  let d' := filter (λ kv, kv.1 ∈ chosen) d in
  length d' = size (list_to_set chosen : gset string) ∧
  (∀ k, k ∈ keys d' ↔ k ∈ chosen) ∧
  keys d' = filter (.∈ chosen) (keys d) ∧
  sublist (keys d') (keys d).
Proof.
  intros Hwf Hsub d'.
  pose proof (keys_filter (.∈ chosen) d) as Hkeys. simpl in Hkeys.
  fold d' in Hkeys.
  assert (∀ k, k ∈ keys d' ↔ k ∈ chosen) as Hmem.
  { intros k. rewrite Hkeys, list_elem_of_filter.
    split; [by intros [? ?]|]. intros Hk. split; [done|by apply Hsub]. }
  split; [|split; [done|split; [done|]]].
  - assert (length d' = length (keys d')) as ->.
    { unfold keys. by rewrite length_fmap. }
    rewrite <- (size_list_to_set (C:=gset string)).
    + f_equal. apply set_eq. intros k.
      rewrite !elem_of_list_to_set. apply Hmem.
    + rewrite Hkeys. by apply NoDup_filter.
  - rewrite Hkeys. apply sublist_filter.
Qed.
End fix_chosen_facts.

(** ** [fix_chosen] on a fixed instance *)

Section refix.
Context `{Torch}.

(** A fixed [DiffMutableOP] rejects [fix_chosen] and stays as it is. *)
Lemma op_refix_run chosen (s : pystate DiffMutableOP.t) :
  DiffMutableOP._is_fixed (self s) = true →
  DiffMutableOP.fix_chosen chosen s = (Raise AttributeError, s).
Proof.
  intros Hfixed.
  unfold DiffMutableOP.fix_chosen, BaseMutable.is_fixed, bind, get. simpl.
  by rewrite Hfixed.
Qed.

(** A fixed [DiffChoiceRoute] rejects [fix_chosen] too, but only after the
    assignment to [_unfixed_choices] has taken place. *)
Lemma route_refix_run chosen (s : pystate DiffChoiceRoute.t) :
  DiffChoiceRoute._is_fixed (self s) = true →
  DiffChoiceRoute.fix_chosen chosen s =
  (Raise AttributeError,
   PyState (DiffChoiceRoute.set__unfixed_choices
              (Some (keys (DiffChoiceRoute._candidates (self s)))) (self s))
     (env s) (calls s)).
Proof.
  intros Hfixed.
  unfold DiffChoiceRoute.fix_chosen, DiffChoiceRoute.choices,
    BaseMutable.is_fixed, bind, get, modify. simpl.
  by rewrite Hfixed.
Qed.
End refix.

(** C2 (evaluation of the code at the failing input). A route over the
    edges a, b, c is fixed with [b, c]; [forward_fixed] on the inputs
    [1, 2, 3] then returns b(2) + c(3) = 320. A second [fix_chosen] raises
    [AttributeError], yet it has replaced the snapshot [a, b, c] of the
    full ordering by [b, c]: the instance is not as it was before the
    failing call, and [forward_fixed] on the same inputs now returns
    b(1) + c(2) = 210. *)
Theorem C2_route_refix_overwrites_snapshot :
  let s0 := Demo.start (Demo.route false) in
  let s1 := (DiffChoiceRoute.fix_chosen ["b"; "c"]%string s0).2 in
  let s2 := (DiffChoiceRoute.fix_chosen ["b"; "c"]%string s1).2 in
  (DiffChoiceRoute.fix_chosen ["b"; "c"]%string s0).1 = Ok tt ∧
  (DiffChoiceRoute.fix_chosen ["b"; "c"]%string s1).1 = Raise AttributeError ∧
  DiffChoiceRoute._unfixed_choices (self s1) = Some ["a"; "b"; "c"]%string ∧
  DiffChoiceRoute._unfixed_choices (self s2) = Some ["b"; "c"]%string ∧
  self s2 ≠ self s1 ∧
  (DiffChoiceRoute.forward_fixed [1; 2; 3]%Q s1).1 = Ok 320%Q ∧
  (DiffChoiceRoute.forward_fixed [1; 2; 3]%Q s2).1 = Ok 210%Q.
Proof.
  vm_compute. repeat split; try reflexivity. intros Heq. discriminate Heq.
Qed.

(** ** C4: the state after one [fix_chosen] *)

(** C4. For an unfixed mutable of any of the three classes whose candidate
    dictionary has distinct keys, and a chosen value all of whose names are
    candidate names, [fix_chosen] returns normally and leaves an instance
    in which: the number of candidates is the number of distinct chosen
    names, a key survives exactly when it is chosen, the surviving keys are
    the original keys with the unchosen ones struck out (same order), and
    [_is_fixed] is true. Nothing else of the program state moves. *)
Theorem C4_fix_chosen_prunes `{Torch} :
  (∀ (o : DiffMutableOP.t) (chosen : str_or_list) w log,
     dict_wf (DiffMutableOP._candidates o) →
     DiffMutableOP._is_fixed o = false →
     normalize_chosen chosen ⊆ keys (DiffMutableOP._candidates o) →
     ∃ o',
       DiffMutableOP.fix_chosen chosen (PyState o w log)
         = (Ok tt, PyState o' w log) ∧
       length (DiffMutableOP._candidates o')
         = size (list_to_set (normalize_chosen chosen) : gset string) ∧
       (∀ k, k ∈ keys (DiffMutableOP._candidates o')
             ↔ k ∈ normalize_chosen chosen) ∧
       keys (DiffMutableOP._candidates o')
         = filter (.∈ normalize_chosen chosen)
             (keys (DiffMutableOP._candidates o)) ∧
       sublist (keys (DiffMutableOP._candidates o'))
         (keys (DiffMutableOP._candidates o)) ∧
       DiffMutableOP._is_fixed o' = true ∧
       DiffMutableOP.class_of o' = DiffMutableOP.class_of o) ∧
  (∀ (r : DiffChoiceRoute.t) (chosen : list string) w log,
     dict_wf (DiffChoiceRoute._candidates r) →
     DiffChoiceRoute._is_fixed r = false →
     chosen ⊆ keys (DiffChoiceRoute._candidates r) →
     ∃ r',
       DiffChoiceRoute.fix_chosen chosen (PyState r w log)
         = (Ok tt, PyState r' w log) ∧
       length (DiffChoiceRoute._candidates r')
         = size (list_to_set chosen : gset string) ∧
       (∀ k, k ∈ keys (DiffChoiceRoute._candidates r') ↔ k ∈ chosen) ∧
       keys (DiffChoiceRoute._candidates r')
         = filter (.∈ chosen) (keys (DiffChoiceRoute._candidates r)) ∧
       sublist (keys (DiffChoiceRoute._candidates r'))
         (keys (DiffChoiceRoute._candidates r)) ∧
       DiffChoiceRoute._is_fixed r' = true).
Proof.
  split.
  - intros o chosen w log Hwf Hunfixed Hsub.
    eexists. split; [by apply op_fix_chosen_run|]. simpl.
    destruct (pruned_keys _ _ Hwf Hsub) as (Hlen & Hmem & Hkeys & Hsl).
    by repeat split; try apply Hmem.
  - intros r chosen w log Hwf Hunfixed Hsub.
    eexists. split; [by apply route_fix_chosen_run|]. simpl.
    destruct (pruned_keys _ _ Hwf Hsub) as (Hlen & Hmem & Hkeys & Hsl).
    by repeat split; try apply Hmem.
Qed.

Lemma demo_edges_wf : dict_wf Demo.edges.
Proof. unfold dict_wf. compute_done. Qed.

Lemma C4_fix_chosen_prunes_witness :
  (∃ o',
     DiffMutableOP.fix_chosen (PyStr "b")
       (Demo.start (Demo.op DiffMutableOP.IsOneHotMutableOP))
       = (Ok tt, PyState o' 0 []) ∧
     length (DiffMutableOP._candidates o') = 1 ∧
     keys (DiffMutableOP._candidates o') = ["b"]%string ∧
     DiffMutableOP._is_fixed o' = true) ∧
  (∃ r',
     DiffChoiceRoute.fix_chosen ["c"; "a"]%string
       (Demo.start (Demo.route true))
       = (Ok tt, PyState r' 0 []) ∧
     length (DiffChoiceRoute._candidates r') = 2 ∧
     keys (DiffChoiceRoute._candidates r') = ["a"; "c"]%string ∧
     DiffChoiceRoute._is_fixed r' = true).
Proof.
  split.
  - destruct (proj1 (C4_fix_chosen_prunes (H:=Demo.torch))
                (Demo.op DiffMutableOP.IsOneHotMutableOP) (PyStr "b") 0 [])
      as (o' & Hrun & Hlen & _ & Hkeys & _ & Hfixed & _).
    + exact demo_edges_wf.
    + reflexivity.
    + compute_done.
    + exists o'. split; [exact Hrun|]. split; [|split; [|exact Hfixed]].
      * rewrite Hlen. by vm_compute.
      * rewrite Hkeys. by vm_compute.
  - destruct (proj2 (C4_fix_chosen_prunes (H:=Demo.torch))
                (Demo.route true) ["c"; "a"]%string 0 [])
      as (r' & Hrun & Hlen & _ & Hkeys & _ & Hfixed).
    + exact demo_edges_wf.
    + reflexivity.
    + compute_done.
    + exists r'. split; [exact Hrun|]. split; [|split; [|exact Hfixed]].
      * rewrite Hlen. by vm_compute.
      * rewrite Hkeys. by vm_compute.
Defined.

(** ** The forward passes *)

Section forward_facts.
Context `{Torch}.

Lemma omap_pointwise {A B} (f g : A → option B) (l : list A) :
  (∀ a, f a = g a) → omap f l = omap g l.
Proof.
  intros Hfg. induction l as [|a l IH]; [done|].
  cbn. rewrite Hfg. destruct (g a); [f_equal|]; exact IH.
Qed.

(** The loop over [zip(probs, self._candidates.values())] selects the
    terms of the weighted sum. *)
Lemma weighted_outputs_run (probs : list Q) candidates x
    (s : pystate DiffMutableOP.t) :
  DiffMutableOP.weighted_outputs probs candidates x s =
  match eval_terms (weighted_terms probs candidates x) (env s) with
  | (Ok vs, w, log) => (Ok vs, PyState (self s) w (calls s ++ log))
  | (Raise e, w, log) => (Raise e, PyState (self s) w (calls s ++ log))
  end.
Proof.
  unfold DiffMutableOP.weighted_outputs.
  rewrite (for_fold_terms (self s)
             (λ '(prob, (name, module)),
                if Qgt0 prob then Some (Term name module x (Some prob))
                else None)
             (λ l v, l ++ [v])); [| |done].
  - assert (omap (λ '(prob, (name, module)),
                    if Qgt0 prob then Some (Term name module x (Some prob))
                    else None) (zip probs candidates)
            = weighted_terms probs candidates x) as ->.
    { unfold weighted_terms. rewrite omap_zip_r.
      rewrite <- (omap_imap_zip _ candidates probs).
      apply omap_pointwise. intros [i [name module]]. done. }
    destruct (eval_terms _ (env s)) as [[[vs|e] w] log]; [|done].
    by rewrite fold_left_snoc.
  - intros acc [prob [name module]] s' _ _. by destruct (Qgt0 prob).
Qed.

Lemma op_forward_arch_param_run x (p : list Q) (s : pystate DiffMutableOP.t) :
  DiffMutableOP.forward_arch_param x (Some p) s =
  sum_of_terms
    (weighted_terms (softmax p) (DiffMutableOP._candidates (self s)) x) s.
Proof.
  unfold DiffMutableOP.forward_arch_param,
    DiffMutableModule.compute_arch_probs, sum_of_terms.
  unfold bind at 1. unfold ret at 1.
  unfold bind at 1. unfold get at 1.
  unfold bind at 1. rewrite weighted_outputs_run.
  by destruct (eval_terms _ (env s)) as [[[vs|e] w] log].
Qed.

(** Entries of the probability vector beyond the last candidate, and
    candidates beyond the last entry, contribute no term. *)
Lemma weighted_terms_take (probs : list Q) candidates x :
  weighted_terms probs candidates x
  = weighted_terms probs (take (length probs) candidates) x.
Proof.
  unfold weighted_terms.
  pose (g := λ (c : string * nn_Module) (prob : Q),
               if Qgt0 prob then Some (Term c.1 c.2 x (Some prob)) else None).
  assert (∀ cs, omap (λ '(i, (name, module)),
                        match probs !! i with
                        | Some prob =>
                            if Qgt0 prob
                            then Some (Term name module x (Some prob))
                            else None
                        | None => None
                        end) (imap pair cs)
               = omap id (zip_with g cs probs)) as Hg.
  { intros cs. rewrite <- omap_imap_zip. apply omap_pointwise.
    by intros [i [name module]]. }
  rewrite !Hg. by rewrite zip_with_take_l by done.
Qed.

Lemma weighted_terms_modules (probs : list Q) candidates x :
  Forall never_raises (values candidates) →
  Forall (λ t, never_raises (t_module t)) (weighted_terms probs candidates x).
Proof.
  intros Hc. apply Forall_forall. intros t Ht.
  unfold weighted_terms in Ht. apply list_elem_of_omap in Ht.
  destruct Ht as ([i [name module]] & Hin & Hsel).
  apply elem_of_lookup_imap in Hin as (j & c & Heq & Hj). simplify_eq.
  destruct (probs !! j) as [prob|]; [|done].
  destruct (Qgt0 prob); [|done]. simplify_eq. simpl.
  rewrite Forall_forall in Hc. apply Hc. unfold values.
  apply list_elem_of_fmap. exists (name, module). split; [done|].
  by eapply list_elem_of_lookup_2.
Qed.
End forward_facts.

(** ** C5 and C9: the weighted sum of a [DiffMutableOP] *)

Section weighted_sum.
Context `{Torch}.

(** Which terms the weighted sum has: one for every position that holds
    both a candidate and a strictly positive probability. *)
Lemma weighted_terms_spec (probs : list Q) candidates x (t : term) :
  t ∈ weighted_terms probs candidates x ↔
  ∃ i name module prob,
    candidates !! i = Some (name, module) ∧ probs !! i = Some prob ∧
    Qgt0 prob = true ∧ t = Term name module x (Some prob).
Proof.
  unfold weighted_terms. rewrite list_elem_of_omap. split.
  - intros ([i [name module]] & Hin & Hsel).
    apply elem_of_lookup_imap in Hin as (j & c & Heq & Hj). simplify_eq.
    destruct (probs !! j) as [prob|] eqn:Hp; [|done].
    destruct (Qgt0 prob) eqn:Hgt; [|done]. simplify_eq.
    by exists j, name, module, prob.
  - intros (i & name & module & prob & Hc & Hp & Hgt & ->).
    exists (i, (name, module)). split.
    + apply elem_of_lookup_imap. by exists i, (name, module).
    + by rewrite Hp, Hgt.
Qed.
End weighted_sum.

(** C5. For a [DiffMutableOP] with K candidates and an architecture
    parameter of length K (whose softmax has length K as well),
    [forward_arch_param(x, arch_param)], and [forward(x, arch_param)] on an
    unfixed instance, return the sum of [prob * candidate(x)] over the
    candidates in insertion order, where [prob] is the entry of
    [softmax(arch_param)] at the candidate's position; every candidate has
    such an entry, and it contributes a term exactly when the entry is
    strictly positive. *)
Theorem C5_op_weighted_sum `{Torch} (o : DiffMutableOP.t) (x : tensor)
    (p : list Q) (w : world) (log : list string) :
  DiffMutableOP.class_of o = DiffMutableOP.IsDiffMutableOP →
  DiffMutableOP._is_fixed o = false →
  length p = length (DiffMutableOP._candidates o) →
  length (softmax p) = length p →
  let s := PyState o w log in
  let terms := weighted_terms (softmax p) (DiffMutableOP._candidates o) x in
  DiffMutableOP.forward_arch_param x (Some p) s = sum_of_terms terms s ∧
  DiffMutableModule.forward x (Some p) s = sum_of_terms terms s ∧
  (∀ t, t ∈ terms ↔
     ∃ i name module prob,
       DiffMutableOP._candidates o !! i = Some (name, module) ∧
       softmax p !! i = Some prob ∧ Qgt0 prob = true ∧
       t = Term name module x (Some prob)) ∧
  (∀ i, i < length (DiffMutableOP._candidates o) →
     is_Some (softmax p !! i)).
Proof.
  intros Hcls Hunfixed Hlen Hsm s terms. split; [|split; [|split]].
  - apply op_forward_arch_param_run.
  - unfold DiffMutableModule.forward, BaseMutable.is_fixed.
    unfold bind at 1. unfold get at 1. simpl. rewrite Hunfixed.
    unfold bind at 1. unfold get at 1. simpl. rewrite Hcls.
    apply op_forward_arch_param_run.
  - intros t. apply weighted_terms_spec.
  - intros i Hi. apply lookup_lt_is_Some. lia.
Qed.

Lemma C5_op_weighted_sum_witness :
  DiffMutableOP.forward_arch_param 1%Q (Some [0; 200; 0]%Q)
    (Demo.start (Demo.op DiffMutableOP.IsDiffMutableOP))
  = (Ok 10%Q, PyState (Demo.op DiffMutableOP.IsDiffMutableOP) 1 ["b"%string]).
Proof.
  destruct (C5_op_weighted_sum (H:=Demo.torch)
              (Demo.op DiffMutableOP.IsDiffMutableOP) 1%Q [0; 200; 0]%Q 0 [])
    as (Hrun & _); [reflexivity..|].
  unfold Demo.start. rewrite Hrun. vm_compute. reflexivity.
Defined.

(** C9. When the probability vector of the architecture parameter has
    m < K entries, [forward_arch_param] checks no length: it returns the
    weighted sum over the first m candidates in insertion order, as if the
    last K - m candidates were not there, and it returns normally whenever
    those first m candidates do. *)
Theorem C9_op_short_parameter `{Torch} (o : DiffMutableOP.t) (x : tensor)
    (p : list Q) (w : world) (log : list string) :
  length (softmax p) < length (DiffMutableOP._candidates o) →
  let s := PyState o w log in
  let m := length (softmax p) in
  let first_m := take m (DiffMutableOP._candidates o) in
  length first_m = m ∧
  DiffMutableOP.forward_arch_param x (Some p) s
    = sum_of_terms (weighted_terms (softmax p) first_m x) s ∧
  (Forall never_raises (values first_m) →
   is_ok (DiffMutableOP.forward_arch_param x (Some p) s).1 = true) ∧
  (∀ t, t ∈ weighted_terms (softmax p) first_m x ↔
     ∃ i name module prob,
       i < m ∧ DiffMutableOP._candidates o !! i = Some (name, module) ∧
       softmax p !! i = Some prob ∧ Qgt0 prob = true ∧
       t = Term name module x (Some prob)).
Proof.
  intros Hshort s m first_m.
  assert (DiffMutableOP.forward_arch_param x (Some p) s
          = sum_of_terms (weighted_terms (softmax p) first_m x) s) as Hrun.
  { rewrite op_forward_arch_param_run. simpl.
    by rewrite weighted_terms_take. }
  split; [|split; [done|split]].
  - unfold first_m. rewrite length_take. lia.
  - intros Hok. rewrite Hrun. unfold sum_of_terms.
    destruct (eval_terms_ok (weighted_terms (softmax p) first_m x) (env s))
      as (vs & w' & log' & ->); [|done].
    by apply weighted_terms_modules.
  - intros t. rewrite weighted_terms_spec. split.
    + intros (i & name & module & prob & Hc & Hp & Hgt & ->).
      apply lookup_take_Some in Hc as [Hc Hi].
      by exists i, name, module, prob.
    + intros (i & name & module & prob & Hi & Hc & Hp & Hgt & ->).
      exists i, name, module, prob. split; [|done].
      by apply lookup_take_Some.
Qed.

Lemma C9_op_short_parameter_witness :
  DiffMutableOP.forward_arch_param 1%Q (Some [200; 0]%Q)
    (Demo.start (Demo.op DiffMutableOP.IsDiffMutableOP))
  = (Ok 1%Q, PyState (Demo.op DiffMutableOP.IsDiffMutableOP) 1 ["a"%string]).
Proof.
  destruct (C9_op_short_parameter (H:=Demo.torch)
              (Demo.op DiffMutableOP.IsDiffMutableOP) 1%Q [200; 0]%Q 0 [])
    as (_ & Hrun & _); [simpl; lia|].
  unfold Demo.start. rewrite Hrun. vm_compute. reflexivity.
Defined.

(** ** C6 and C3: the forward pass of a fixed instance *)

Section fixed_forward.
Context `{Torch}.

(** [forward_fixed] of a [DiffMutableOP] whose chosen names all resolve,
    in the current dictionary, to the modules they had in [candidates]. *)
Lemma op_forward_fixed_run (candidates : list (string * nn_Module))
    (chosen : list string) x (s : pystate DiffMutableOP.t) :
  DiffMutableOP._chosen (self s) = Some chosen →
  (∀ c, c ∈ chosen →
     is_Some (dict_get c candidates) ∧
     dict_get c (DiffMutableOP._candidates (self s)) = dict_get c candidates) →
  DiffMutableOP.forward_fixed x s
  = sum_of_terms (chosen_terms candidates chosen x) s.
Proof.
  intros Hchosen Hget.
  unfold DiffMutableOP.forward_fixed, sum_of_terms, chosen_terms.
  unfold bind at 1. unfold get at 1. rewrite Hchosen.
  rewrite (for_fold_terms (self s)
             (λ name, (λ module, Term name module x None)
                        <$> dict_get name candidates) py_add); [| |done].
  - by destruct (eval_terms _ (env s)) as [[[vs|e] w] log].
  - intros total c s' Hc Hs'.
    destruct (Hget c Hc) as [[module Hm] Heq].
    unfold DiffMutableOP.getitem.
    unfold bind at 1. unfold bind at 1. unfold get at 1.
    rewrite Hs', Heq, Hm. simpl. done.
Qed.

(** The unweighted sum over the chosen names has one term per name, in
    the order of the names. *)
Lemma chosen_terms_names (candidates : list (string * nn_Module))
    (chosen : list string) x :
  chosen ⊆ keys candidates →
  t_name <$> chosen_terms candidates chosen x = chosen ∧
  Forall (λ t, t_weight t = None ∧ t_input t = x ∧
               dict_get (t_name t) candidates = Some (t_module t))
    (chosen_terms candidates chosen x).
Proof.
  unfold chosen_terms. induction chosen as [|c chosen IH]; intros Hsub.
  - done.
  - destruct (dict_get_is_Some candidates c) as [module Hm].
    { apply Hsub. by left. }
    cbn. rewrite Hm. cbn.
    destruct IH as [IHn IHf]. { intros k Hk. apply Hsub. by right. }
    split.
    + by rewrite IHn.
    + by constructor.
Qed.

(** Walking the snapshot of the keys next to the inputs and looking each
    chosen key up meets every chosen edge at its own position. *)
Lemma route_selected_terms (edges : list (string * nn_Module))
    (chosen : list string) (inputs : list tensor) :
  dict_wf edges →
  omap (λ '(choice, x),
          if bool_decide (choice ∈ chosen)
          then (λ module, Term choice module x None) <$> dict_get choice edges
          else None) (zip (keys edges) inputs)
  = chosen_edge_terms edges chosen inputs.
Proof.
  intros Hwf.
  pose (G := λ (c : string * nn_Module) (x : tensor),
               if bool_decide (c.1 ∈ chosen)
               then Some (Term c.1 c.2 x None) else None).
  trans (omap id (zip_with G edges inputs)).
  - assert (∀ l ins,
              (∀ k m, (k, m) ∈ l → dict_get k edges = Some m) →
              omap (λ '(choice, x),
                      if bool_decide (choice ∈ chosen)
                      then (λ module, Term choice module x None)
                             <$> dict_get choice edges
                      else None) (zip (keys l) ins)
              = omap id (zip_with G l ins)) as Hl.
    { induction l as [|[k m] l IH]; intros [|x ins] Hin; try done.
      unfold keys. rewrite fmap_cons. cbn.
      rewrite (Hin k m) by (by left). unfold G at 1. simpl.
      unfold keys in IH. rewrite IH.
      - by destruct (bool_decide (k ∈ chosen)).
      - intros ? ? ?. apply Hin. by right. }
    apply Hl. intros k m [i Hi]%list_elem_of_lookup_1.
    by eapply dict_get_Some_lookup.
  - unfold chosen_edge_terms. rewrite <- omap_imap_zip.
    apply omap_pointwise. by intros [i [name module]].
Qed.

(** [forward_fixed] of a [DiffChoiceRoute] whose snapshot is the key list
    of [edges] and whose chosen edges are still the modules of [edges]. *)
Lemma route_forward_fixed_run (edges : list (string * nn_Module))
    (chosen : list string) inputs (s : pystate DiffChoiceRoute.t) :
  dict_wf edges →
  DiffChoiceRoute._chosen (self s) = Some chosen →
  DiffChoiceRoute._unfixed_choices (self s) = Some (keys edges) →
  (∀ c, c ∈ chosen →
     dict_get c (DiffChoiceRoute._candidates (self s)) = dict_get c edges) →
  DiffChoiceRoute.forward_fixed inputs s
  = sum_of_terms (chosen_edge_terms edges chosen inputs) s.
Proof.
  intros Hwf Hchosen Hsnap Hget.
  unfold DiffChoiceRoute.forward_fixed, sum_of_terms.
  unfold bind at 1. unfold get at 1. rewrite Hchosen.
  unfold bind at 1. rewrite bool_decide_true by eauto.
  unfold py_assert, ret at 1.
  unfold bind at 1. unfold get at 1. rewrite Hsnap.
  unfold bind at 1.
  rewrite (for_fold_terms (self s)
             (λ '(choice, x),
                if bool_decide (choice ∈ chosen)
                then (λ module, Term choice module x None)
                       <$> dict_get choice edges
                else None)
             (λ l v, l ++ [v])); [| |done].
  - rewrite route_selected_terms by done.
    destruct (eval_terms _ (env s)) as [[[vs|e] w] log];
      unfold ret; by rewrite ?fold_left_snoc.
  - intros acc [choice x] s' Hin Hs'.
    unfold bind at 1. unfold get at 1. rewrite Hs', Hchosen. simpl.
    case_bool_decide as Hc; [|done].
    unfold DiffChoiceRoute.getitem.
    unfold bind at 1. unfold bind at 1. unfold get at 1.
    rewrite Hs', (Hget _ Hc).
    destruct (dict_get_is_Some edges choice) as [module ->]; [|done].
    by apply elem_of_zip_l in Hin.
Qed.

(** Which terms the sum over the chosen edges has. *)
Lemma chosen_edge_terms_spec (edges : list (string * nn_Module))
    (chosen : list string) (inputs : list tensor) (t : term) :
  t ∈ chosen_edge_terms edges chosen inputs ↔
  ∃ i name module x,
    edges !! i = Some (name, module) ∧ inputs !! i = Some x ∧
    name ∈ chosen ∧ t = Term name module x None.
Proof.
  unfold chosen_edge_terms. rewrite list_elem_of_omap. split.
  - intros ([i [name module]] & Hin & Hsel).
    apply elem_of_lookup_imap in Hin as (j & c & Heq & Hj). simplify_eq.
    destruct (inputs !! j) as [x|] eqn:Hx; [|done].
    case_bool_decide; [|done]. simplify_eq.
    by exists j, name, module, x.
  - intros (i & name & module & x & Hc & Hx & Hch & ->).
    exists (i, (name, module)). split.
    + apply elem_of_lookup_imap. by exists i, (name, module).
    + rewrite Hx. by rewrite bool_decide_true.
Qed.
End fixed_forward.

(** C6. A [DiffMutableOP] (of either class) fixed with chosen names that
    are candidate names: afterwards [forward_fixed(x)], and [forward(x,
    arch_param)] whatever [arch_param] is, return the sum of one term per
    chosen name, the candidate that was registered under the name applied
    to [x], with no weight. *)
Theorem C6_op_forward_fixed `{Torch} (o : DiffMutableOP.t)
    (chosen : str_or_list) (x : tensor) (w : world) (log : list string) :
  dict_wf (DiffMutableOP._candidates o) →
  DiffMutableOP._is_fixed o = false →
  normalize_chosen chosen ⊆ keys (DiffMutableOP._candidates o) →
  let names := normalize_chosen chosen in
  let terms := chosen_terms (DiffMutableOP._candidates o) names x in
  ∃ o',
    DiffMutableOP.fix_chosen chosen (PyState o w log)
      = (Ok tt, PyState o' w log) ∧
    t_name <$> terms = names ∧
    Forall (λ t, t_weight t = None ∧ t_input t = x ∧
                 dict_get (t_name t) (DiffMutableOP._candidates o)
                   = Some (t_module t)) terms ∧
    ∀ w' log' (arch_param : option (list Q)),
      DiffMutableOP.forward_fixed x (PyState o' w' log')
        = sum_of_terms terms (PyState o' w' log') ∧
      DiffMutableModule.forward x arch_param (PyState o' w' log')
        = sum_of_terms terms (PyState o' w' log').
Proof.
  intros Hwf Hunfixed Hsub names terms.
  eexists. split; [by apply op_fix_chosen_run|].
  destruct (chosen_terms_names (DiffMutableOP._candidates o) names x Hsub)
    as [Hnames Hterms].
  split; [done|]. split; [done|].
  intros w' log' arch_param.
  assert (∀ s : pystate DiffMutableOP.t,
            DiffMutableOP._chosen (self s) = Some names →
            DiffMutableOP._candidates (self s)
              = filter (λ kv, kv.1 ∈ names) (DiffMutableOP._candidates o) →
            DiffMutableOP.forward_fixed x s = sum_of_terms terms s) as Hrun.
  { intros s Hch Hc. apply op_forward_fixed_run; [done|].
    intros c Hin. split.
    - apply dict_get_is_Some. by apply Hsub.
    - rewrite Hc. exact (dict_get_filter (.∈ names) c _ Hin). }
  split.
  - by apply Hrun.
  - unfold DiffMutableModule.forward, BaseMutable.is_fixed.
    unfold bind at 1. unfold get at 1. simpl. by apply Hrun.
Qed.

Lemma C6_op_forward_fixed_witness :
  ∃ o',
    DiffMutableOP.fix_chosen (PyList ["c"; "a"]%string)
      (Demo.start (Demo.op DiffMutableOP.IsDiffMutableOP))
      = (Ok tt, PyState o' 0 []) ∧
    DiffMutableModule.forward 2%Q (Some [5; 5; 5]%Q) (PyState o' 0 [])
      = (Ok 202%Q, PyState o' 2 ["c"; "a"]%string).
Proof.
  destruct (C6_op_forward_fixed (H:=Demo.torch)
              (Demo.op DiffMutableOP.IsDiffMutableOP)
              (PyList ["c"; "a"]%string) 2%Q 0 [])
    as (o' & Hfix & _ & _ & Hrun).
  - exact demo_edges_wf.
  - reflexivity.
  - compute_done.
  - exists o'. split; [exact Hfix|].
    destruct (Hrun 0 [] (Some [5; 5; 5]%Q)) as [_ Hforward].
    etrans; [exact Hforward|].
    clear Hfix Hrun Hforward. vm_compute. reflexivity.
Defined.

(** C3. A [DiffChoiceRoute] fixed once with chosen names that are edge
    names: afterwards [forward_fixed(inputs)], on inputs aligned with the
    edges as they were before fixing, returns the sum of one term per
    chosen edge, the edge applied to the input at the edge's own position
    in the ordering before fixing, taken in that ordering. *)
Theorem C3_route_forward_fixed `{Torch} (r : DiffChoiceRoute.t)
    (chosen : list string) (inputs : list tensor) (w : world)
    (log : list string) :
  dict_wf (DiffChoiceRoute._candidates r) →
  DiffChoiceRoute._is_fixed r = false →
  chosen ⊆ keys (DiffChoiceRoute._candidates r) →
  length inputs = length (DiffChoiceRoute._candidates r) →
  let terms := chosen_edge_terms (DiffChoiceRoute._candidates r) chosen inputs in
  ∃ r',
    DiffChoiceRoute.fix_chosen chosen (PyState r w log)
      = (Ok tt, PyState r' w log) ∧
    (∀ t, t ∈ terms ↔
       ∃ i name module x,
         DiffChoiceRoute._candidates r !! i = Some (name, module) ∧
         inputs !! i = Some x ∧ name ∈ chosen ∧
         t = Term name module x None) ∧
    (∀ i, i < length (DiffChoiceRoute._candidates r) →
       is_Some (inputs !! i)) ∧
    ∀ w' log',
      DiffChoiceRoute.forward_fixed inputs (PyState r' w' log')
        = sum_of_terms terms (PyState r' w' log').
Proof.
  intros Hwf Hunfixed Hsub Hlen terms.
  eexists. split; [by apply route_fix_chosen_run|].
  split; [apply chosen_edge_terms_spec|].
  split. { intros i Hi. apply lookup_lt_is_Some. lia. }
  intros w' log'. apply route_forward_fixed_run; simpl; try done.
  intros c Hc. exact (dict_get_filter (.∈ chosen) c _ Hc).
Qed.

Lemma C3_route_forward_fixed_witness :
  ∃ r',
    DiffChoiceRoute.fix_chosen ["b"; "c"]%string
      (Demo.start (Demo.route true))
      = (Ok tt, PyState r' 0 []) ∧
    DiffChoiceRoute.forward_fixed [1; 2; 3]%Q (PyState r' 0 [])
      = (Ok 320%Q, PyState r' 2 ["b"; "c"]%string).
Proof.
  destruct (C3_route_forward_fixed (H:=Demo.torch) (Demo.route true)
              ["b"; "c"]%string [1; 2; 3]%Q 0 [])
    as (r' & Hfix & _ & _ & Hrun).
  - exact demo_edges_wf.
  - reflexivity.
  - compute_done.
  - reflexivity.
  - exists r'. split; [exact Hfix|]. etrans; [exact (Hrun 0 [])|].
    clear Hfix Hrun. vm_compute. reflexivity.
Defined.

(** ** C8 and C1: the entry points of an unfixed instance *)

Section length_check.
Context `{Torch}.

Lemma route_forward_arch_param_mismatch (x : list tensor)
    (arch_param : option (list Q)) (s : pystate DiffChoiceRoute.t) :
  length x ≠ length (DiffChoiceRoute._candidates (self s)) →
  DiffChoiceRoute.forward_arch_param x arch_param s
    = (Raise AssertionError, s).
Proof.
  intros Hlen. unfold DiffChoiceRoute.forward_arch_param.
  unfold bind at 1. unfold get at 1.
  unfold bind at 1. by rewrite bool_decide_false.
Qed.

Lemma route_forward_all_mismatch (x : list tensor)
    (s : pystate DiffChoiceRoute.t) :
  length x ≠ length (DiffChoiceRoute._candidates (self s)) →
  DiffChoiceRoute.forward_all x s = (Raise AssertionError, s).
Proof.
  intros Hlen. unfold DiffChoiceRoute.forward_all.
  unfold bind at 1. unfold get at 1.
  unfold bind at 1. by rewrite bool_decide_false.
Qed.
End length_check.

(** C8. When the number of inputs differs from the number of candidate
    edges, [forward_arch_param] (in both modes, with or without a
    parameter), [forward_all], and [forward] on an unfixed route raise
    [AssertionError] and leave the whole state as it was: no candidate has
    been invoked, nothing outside has been touched. *)
Theorem C8_route_length_mismatch `{Torch} (x : list tensor)
    (arch_param : option (list Q)) (s : pystate DiffChoiceRoute.t) :
  length x ≠ length (DiffChoiceRoute._candidates (self s)) →
  DiffChoiceRoute.forward_arch_param x arch_param s
    = (Raise AssertionError, s) ∧
  DiffChoiceRoute.forward_all x s = (Raise AssertionError, s) ∧
  (DiffChoiceRoute._is_fixed (self s) = false →
   DiffMutableModule.forward x arch_param s = (Raise AssertionError, s)).
Proof.
  intros Hlen.
  split; [by apply route_forward_arch_param_mismatch|].
  split; [by apply route_forward_all_mismatch|].
  intros Hunfixed.
  unfold DiffMutableModule.forward, BaseMutable.is_fixed.
  unfold bind at 1. unfold get at 1. simpl. rewrite Hunfixed.
  by apply route_forward_arch_param_mismatch.
Qed.

Lemma C8_route_length_mismatch_witness :
  DiffChoiceRoute.forward_arch_param [1; 2]%Q (Some [0; 200; 0]%Q)
    (Demo.start (Demo.route true))
    = (Raise AssertionError, Demo.start (Demo.route true)) ∧
  DiffChoiceRoute.forward_all [1; 2]%Q (Demo.start (Demo.route true))
    = (Raise AssertionError, Demo.start (Demo.route true)).
Proof.
  destruct (C8_route_length_mismatch (H:=Demo.torch) [1; 2]%Q
              (Some [0; 200; 0]%Q) (Demo.start (Demo.route true)))
    as (Hfap & Hall & _).
  - simpl. lia.
  - split; [exact Hfap|exact Hall].
Defined.

(** C1 fails as stated: a route built with [with_arch_param=True] has no
    fallback. On the edges a, b, c and the inputs [1, 2, 3], [forward]
    without a parameter hands [None] to [compute_arch_probs] and raises,
    while [forward_all] returns a(1) + b(2) + c(3). *)
Lemma C1_counterexample :
  ¬ (∀ (T : Torch) (x : list tensor) (s : pystate DiffChoiceRoute.t),
       DiffChoiceRoute._is_fixed (self s) = false →
       DiffMutableModule.forward x None s = DiffChoiceRoute.forward_all x s).
Proof.
  intros Hall.
  specialize (Hall Demo.torch [1; 2; 3]%Q (Demo.start (Demo.route true))
                eq_refl).
  vm_compute in Hall. discriminate Hall.
Qed.

(** C1, amended. On an unfixed [DiffMutableOP] or [OneHotMutableOP], and
    on an unfixed [DiffChoiceRoute] built with [with_arch_param=False],
    [forward] without an architecture parameter is [forward_all]: same
    result, same effects. *)
Theorem C1_forward_without_arch_param `{Torch} :
  (∀ (x : tensor) (s : pystate DiffMutableOP.t),
     DiffMutableOP._is_fixed (self s) = false →
     DiffMutableModule.forward x None s = DiffMutableOP.forward_all x s) ∧
  (∀ (x : list tensor) (s : pystate DiffChoiceRoute.t),
     DiffChoiceRoute._is_fixed (self s) = false →
     DiffChoiceRoute._with_arch_param (self s) = false →
     DiffMutableModule.forward x None s = DiffChoiceRoute.forward_all x s).
Proof.
  split.
  - intros x s Hunfixed.
    unfold DiffMutableModule.forward, BaseMutable.is_fixed.
    unfold bind at 1. unfold get at 1. simpl. rewrite Hunfixed.
    unfold bind at 1. unfold get at 1.
    by destruct (DiffMutableOP.class_of (self s)).
  - intros x s Hunfixed Hmode.
    unfold DiffMutableModule.forward, BaseMutable.is_fixed.
    unfold bind at 1. unfold get at 1. simpl. rewrite Hunfixed.
    unfold DiffChoiceRoute.forward_arch_param.
    unfold bind at 1. unfold get at 1.
    unfold bind at 1.
    destruct (decide (length x = length (DiffChoiceRoute._candidates (self s))))
      as [Hlen|Hlen].
    + rewrite bool_decide_true by done. unfold py_assert, ret at 1.
      unfold bind at 1. unfold get at 1. by rewrite Hmode.
    + rewrite bool_decide_false by done. unfold py_assert, raise.
      by rewrite route_forward_all_mismatch.
Qed.

Lemma C1_forward_without_arch_param_witness :
  DiffMutableModule.forward 1%Q None
    (Demo.start (Demo.op DiffMutableOP.IsOneHotMutableOP))
    = (Ok 111%Q, PyState (Demo.op DiffMutableOP.IsOneHotMutableOP) 3
                   ["a"; "b"; "c"]%string) ∧
  DiffMutableModule.forward [1; 2; 3]%Q None (Demo.start (Demo.route false))
    = (Ok 321%Q, PyState (Demo.route false) 3 ["a"; "b"; "c"]%string).
Proof.
  split.
  - etrans.
    + apply (proj1 (C1_forward_without_arch_param (H:=Demo.torch))).
      reflexivity.
    + vm_compute. reflexivity.
  - etrans.
    + apply (proj2 (C1_forward_without_arch_param (H:=Demo.torch)));
        reflexivity.
    + vm_compute. reflexivity.
Defined.

(** ** C7: [sample_choice] of a route *)

Section top_k.
Context `{Torch}.

Lemma nth_fmap_Qopp (p : list Q) (i : nat) :
  nth i (Qopp <$> p) 0%Q = Qopp (nth i p 0%Q).
Proof.
  revert i. induction p as [|q p IH]; intros [|i]; simpl; auto.
Qed.

Lemma Qopp_le_inv (a b : Q) : (Qopp a <= Qopp b)%Q → (b <= a)%Q.
Proof.
  destruct a as [an ad], b as [bn bd]. unfold Qle, Qopp. simpl. lia.
Qed.

(** Sorting the negated parameter in ascending order lists the positions
    by descending parameter. *)
Lemma argsort_neg_descending (p : list Q) (idx : list nat) :
  argsort_spec (Qopp <$> p) idx →
  idx ≡ₚ seq 0 (length p) ∧
  ∀ i j a b, i < j → idx !! i = Some a → idx !! j = Some b →
    (nth b p 0 <= nth a p 0)%Q.
Proof.
  intros [Hperm Hsorted]. rewrite length_fmap in Hperm. split; [done|].
  intros i j a b Hij Ha Hb.
  specialize (Hsorted i j a b Hij Ha Hb).
  rewrite !nth_fmap_Qopp in Hsorted. by apply Qopp_le_inv.
Qed.

Lemma sample_choice_run (p : list Q) (s : pystate DiffChoiceRoute.t) :
  (0 ≤ DiffChoiceRoute.num_chosen (self s))%Z →
  length p = length (DiffChoiceRoute._candidates (self s)) →
  argsort_spec (Qopp <$> p) (argsort (Qopp <$> p)) →
  let cs := keys (DiffChoiceRoute._candidates (self s)) in
  let idx := take (Z.to_nat (DiffChoiceRoute.num_chosen (self s)))
               (argsort (Qopp <$> p)) in
  ∃ names,
    DiffChoiceRoute.sample_choice p s = (Ok names, s) ∧
    Forall2 (λ i name, cs !! i = Some name) idx names.
Proof.
  intros Hn Hlen Hspec cs idx.
  apply argsort_neg_descending in Hspec as [Hperm _].
  assert (∀ i, i ∈ idx → is_Some (cs !! i)) as Hrange.
  { intros i Hi. apply lookup_lt_is_Some.
    unfold cs, keys. rewrite length_fmap, <- Hlen.
    apply elem_of_take in Hi as (j & Hj & _).
    apply list_elem_of_lookup_2 in Hj. rewrite Hperm in Hj.
    apply elem_of_seq in Hj. lia. }
  exists ((λ i, default ""%string (cs !! i)) <$> idx). split.
  - unfold DiffChoiceRoute.sample_choice.
    unfold bind at 1. unfold get at 1.
    unfold py_slice_to. rewrite decide_True by done. fold idx.
    apply comprehension_pure. intros i Hi.
    unfold DiffChoiceRoute.choice_at, DiffChoiceRoute.choices.
    unfold bind at 1. unfold get at 1. fold cs.
    by destruct (Hrange i Hi) as [c ->].
  - apply Forall2_fmap_r, Forall_Forall2_diag, Forall_forall.
    intros i Hi. simpl. by destruct (Hrange i Hi) as [c ->].
Qed.

(** What the first [n] positions of a descending order are. *)
Lemma top_of_descending (p : list Q) (full : list nat) (n : nat) :
  full ≡ₚ seq 0 (length p) →
  (∀ i j a b, i < j → full !! i = Some a → full !! j = Some b →
     (nth b p 0 <= nth a p 0)%Q) →
  let idx := take n full in
  length idx = n `min` length p ∧
  NoDup idx ∧
  (∀ a, a ∈ idx → a < length p) ∧
  (∀ i j a b, i < j → idx !! i = Some a → idx !! j = Some b →
     (nth b p 0 <= nth a p 0)%Q) ∧
  (∀ a c, a ∈ idx → c < length p → c ∉ idx → (nth c p 0 <= nth a p 0)%Q).
Proof.
  intros Hperm Hdesc idx.
  assert (NoDup full) as Hnd by (rewrite Hperm; apply NoDup_seq).
  assert (length full = length p) as Hlen
    by (by rewrite Hperm, length_seq).
  split; [|split; [|split; [|split]]].
  - unfold idx. by rewrite length_take, Hlen.
  - unfold idx. eapply sublist_NoDup; [exact Hnd|apply sublist_take].
  - intros a Ha. unfold idx in Ha.
    apply elem_of_take in Ha as (j & Hj & _).
    apply list_elem_of_lookup_2 in Hj. rewrite Hperm in Hj.
    apply elem_of_seq in Hj. lia.
  - intros i j a b Hij Ha Hb. unfold idx in Ha, Hb.
    apply lookup_take_Some in Ha as [Ha _].
    apply lookup_take_Some in Hb as [Hb _]. by eapply Hdesc.
  - intros a c Ha Hc Hnot. unfold idx in Ha, Hnot.
    apply elem_of_take in Ha as (i & Hi & Hin).
    assert (c ∈ full) as [j Hj]%list_elem_of_lookup_1.
    { rewrite Hperm. apply elem_of_seq. lia. }
    destruct (decide (j < n)) as [Hjn|Hjn].
    + exfalso. apply Hnot. apply elem_of_take. by exists j.
    + apply (Hdesc i j a c); [lia|done|done].
Qed.
End top_k.

(** The only descending order of the parameter [0.1, 0.9, 0.5]. *)
Lemma example_order (full : list nat) :
  argsort_spec (Qopp <$> [1 # 10; 9 # 10; 1 # 2]%Q) full → full = [1; 2; 0].
Proof.
  intros [Hperm Hdesc]%argsort_neg_descending.
  assert (NoDup full) as Hnd by (rewrite Hperm; apply NoDup_seq).
  assert (∀ a, a ∈ full → a < 3) as Hrange.
  { intros a Ha. rewrite Hperm in Ha. apply elem_of_seq in Ha. simpl in Ha. lia. }
  apply Permutation_length in Hperm. simpl in Hperm.
  destruct full as [|a [|b [|c [|? ?]]]]; simplify_eq.
  pose proof (Hrange a ltac:(set_solver)) as Ha.
  pose proof (Hrange b ltac:(set_solver)) as Hb.
  pose proof (Hrange c ltac:(set_solver)) as Hc.
  pose proof (Hdesc 0 1 a b ltac:(lia) eq_refl eq_refl) as Hab.
  pose proof (Hdesc 1 2 b c ltac:(lia) eq_refl eq_refl) as Hbc.
  apply NoDup_cons in Hnd as [Hna Hnd].
  apply NoDup_cons in Hnd as [Hnb _].
  assert (a ≠ b ∧ a ≠ c ∧ b ≠ c) as (Hab' & Hac' & Hbc') by set_solver.
  clear Hrange Hdesc Hna Hnb.
  destruct a as [|[|[|a]]], b as [|[|[|b]]], c as [|[|[|c]]];
    try lia; try done;
    unfold Qle in *; simpl in *; lia.
Qed.

(** C7. [sample_choice] of a route with K candidates, on a parameter of
    length K and with [num_chosen >= 0]: it returns the names of the
    candidates at the first [num_chosen] positions of the order in which
    [torch.argsort] lists the negated parameter (all K of them when
    [num_chosen > K]); these positions are distinct, their parameter values
    descend, and no position left out has a larger value than one taken.
    [num_chosen] is the constructor argument, 2 when omitted. On the
    candidates a, b, c and the parameter [0.1, 0.9, 0.5] the result is
    [b, c]. *)
Theorem C7_route_sample_choice `{Torch} :
  (∀ (r : DiffChoiceRoute.t) (p : list Q) (w : world) (log : list string),
     (0 ≤ DiffChoiceRoute.num_chosen r)%Z →
     length p = length (DiffChoiceRoute._candidates r) →
     argsort_spec (Qopp <$> p) (argsort (Qopp <$> p)) →
     ∃ idx names,
       DiffChoiceRoute.sample_choice p (PyState r w log)
         = (Ok names, PyState r w log) ∧
       Forall2 (λ i name, keys (DiffChoiceRoute._candidates r) !! i = Some name)
         idx names ∧
       length idx = Z.to_nat (DiffChoiceRoute.num_chosen r)
                      `min` length (DiffChoiceRoute._candidates r) ∧
       NoDup idx ∧
       (∀ i j a b, i < j → idx !! i = Some a → idx !! j = Some b →
          (nth b p 0 <= nth a p 0)%Q) ∧
       (∀ a c, a ∈ idx → c < length (DiffChoiceRoute._candidates r) →
          c ∉ idx → (nth c p 0 <= nth a p 0)%Q)) ∧
  (∀ edges n with_arch_param r,
     DiffChoiceRoute.__init__ edges n with_arch_param = Ok r →
     DiffChoiceRoute.num_chosen r = default 2%Z n ∧
     DiffChoiceRoute._candidates r = edges ∧
     DiffChoiceRoute._is_fixed r = false) ∧
  (∀ (ea eb ec : nn_Module) with_arch_param (w : world) (log : list string),
     let p := [1 # 10; 9 # 10; 1 # 2]%Q in
     argsort_spec (Qopp <$> p) (argsort (Qopp <$> p)) →
     ∃ r,
       DiffChoiceRoute.__init__
         [("a"%string, ea); ("b"%string, eb); ("c"%string, ec)]
         None with_arch_param = Ok r ∧
       DiffChoiceRoute.sample_choice p (PyState r w log)
         = (Ok ["b"; "c"]%string, PyState r w log)).
Proof.
  split; [|split].
  - intros r p w log Hn Hlen Hspec.
    destruct (sample_choice_run p (PyState r w log) Hn Hlen Hspec)
      as (names & Hrun & Hnames).
    apply argsort_neg_descending in Hspec as [Hperm Hdesc].
    destruct (top_of_descending p _
                (Z.to_nat (DiffChoiceRoute.num_chosen r)) Hperm Hdesc)
      as (Hl & Hnd & _ & Hd & Htop).
    eexists _, names. split; [exact Hrun|]. split; [exact Hnames|].
    rewrite <- Hlen. by repeat split.
  - intros edges n wap r. unfold DiffChoiceRoute.__init__.
    case_bool_decide; [|done]. intros [= <-]. done.
  - intros ea eb ec wap w log p Hspec.
    eexists. split; [reflexivity|].
    destruct (sample_choice_run p
                (PyState (DiffChoiceRoute.Build _
                            [("a"%string, ea); ("b"%string, eb);
                             ("c"%string, ec)]
                            false None None (default false wap) 2) w log))
      as (names & Hrun & Hnames); [done|done|exact Hspec|].
    cbv zeta in Hnames. rewrite (example_order _ Hspec) in Hnames.
    simpl in Hnames.
    apply Forall2_cons_inv_l in Hnames as (n1 & names1 & H1 & Hnames & ->).
    apply Forall2_cons_inv_l in Hnames as (n2 & names2 & H2 & Hnames & ->).
    apply Forall2_nil_inv_l in Hnames as ->.
    simpl in H1, H2. simplify_eq. exact Hrun.
Qed.

Lemma demo_argsort_spec :
  argsort_spec (Qopp <$> [1 # 10; 9 # 10; 1 # 2]%Q)
    (argsort (Torch:=Demo.torch) (Qopp <$> [1 # 10; 9 # 10; 1 # 2]%Q)).
Proof.
  assert (argsort (Torch:=Demo.torch) (Qopp <$> [1 # 10; 9 # 10; 1 # 2]%Q)
          = [1; 2; 0]) as -> by (vm_compute; reflexivity).
  split.
  - symmetry. apply (Permutation_cons_append [1; 2] 0).
  - intros i j a b Hij Ha Hb.
    destruct i as [|[|[|i]]], j as [|[|[|j]]]; simpl in Ha, Hb;
      simplify_eq; try lia; unfold Qle; simpl; lia.
Qed.

Lemma C7_route_sample_choice_witness :
  (∃ idx names,
     DiffChoiceRoute.sample_choice [1 # 10; 9 # 10; 1 # 2]%Q
       (Demo.start (Demo.route false))
       = (Ok names, Demo.start (Demo.route false)) ∧
     length idx = 2 ∧
     Forall2 (λ i name, ["a"; "b"; "c"]%string !! i = Some name) idx names) ∧
  DiffChoiceRoute.sample_choice [1 # 10; 9 # 10; 1 # 2]%Q
    (Demo.start (Demo.route true))
    = (Ok ["b"; "c"]%string, Demo.start (Demo.route true)).
Proof.
  split.
  - destruct (proj1 (C7_route_sample_choice (H:=Demo.torch))
                (Demo.route false) [1 # 10; 9 # 10; 1 # 2]%Q 0 [])
      as (idx & names & Hrun & Hnames & Hlen & _).
    + simpl. lia.
    + reflexivity.
    + exact demo_argsort_spec.
    + exists idx, names. split; [exact Hrun|]. split; [exact Hlen|].
      exact Hnames.
  - destruct (proj2 (proj2 (C7_route_sample_choice (H:=Demo.torch)))
                (Demo.affine 1 0) (Demo.affine 10 0) (Demo.affine 100 0)
                (Some true) 0 [] demo_argsort_spec)
      as (r & Hinit & Hrun).
    vm_compute in Hinit. injection Hinit as <-. exact Hrun.
Defined.

(** ** C10: construction updates the caller's configurations *)

Section construction.
Context `{Registry}.

Lemma union_twice (kw cfg : gmap string cfg_value) :
  kw ∪ (kw ∪ cfg) = kw ∪ cfg.
Proof. by rewrite (assoc_L (∪)), (idemp_L (∪)). Qed.

(** The store after a completed run of the loop of [_build_ops]. *)
Lemma build_loop_store (kw : gmap string cfg_value)
    (items : list (string * nat)) :
  ∀ ops (h : gmap nat (gmap string cfg_value)),
    is_ok (DiffMutableOP_init.build_loop items (Some kw) ops h).1 = true →
    ∀ ref,
      (DiffMutableOP_init.build_loop items (Some kw) ops h).2 !! ref
      = if decide (ref ∈ items.*2) then (kw ∪.) <$> h !! ref else h !! ref.
Proof.
  induction items as [|[name ref0] items IH]; intros ops h Hok ref.
  - done.
  - rewrite fmap_cons.
    simpl in Hok |- *. case_bool_decide as Hname; [done|].
    destruct (MODELS_build _) as [module|e]; [|done].
    rewrite (IH _ _ Hok). unfold DiffMutableOP_init.update_cfg.
    destruct (decide (ref = ref0)) as [->|Hne].
    + rewrite lookup_alter_eq.
      destruct (decide (ref0 ∈ ref0 :: items.*2)) as [_|Hn];
        [|by destruct Hn; left].
      destruct (decide (ref0 ∈ items.*2)); [|done].
      destruct (h !! ref0) as [cfg|]; [|done]. simpl.
      by rewrite union_twice.
    + rewrite lookup_alter_ne by done.
      destruct (decide (ref ∈ items.*2)) as [Hin|Hin],
        (decide (ref ∈ ref0 :: items.*2)) as [Hin'|Hin']; try done.
      * destruct Hin'. by right.
      * by apply elem_of_cons in Hin' as [?|?].
Qed.

(** Without [module_kwargs] the store is left alone. *)
Lemma build_loop_store_None (items : list (string * nat)) :
  ∀ ops (h : gmap nat (gmap string cfg_value)),
    (DiffMutableOP_init.build_loop items None ops h).2 = h.
Proof.
  induction items as [|[name ref0] items IH]; intros ops h; [done|].
  simpl. case_bool_decide; [done|].
  destruct (MODELS_build _) as [module|e]; [apply IH|done].
Qed.
End construction.

(** C10. When a [DiffMutableOP] (of either class) is constructed with
    [module_kwargs] given and the construction completes, every
    configuration dictionary the argument [candidates] refers to has been
    updated in the caller's store: it now is the old dictionary with the
    entries of [module_kwargs] merged in, an entry of [module_kwargs]
    replacing an old entry with the same key. Dictionaries that
    [candidates] does not refer to are as before. *)
Theorem C10_init_updates_configs `{Registry} (c : DiffMutableOP.cls)
    (candidates : list (string * nat)) (module_kwargs : gmap string cfg_value)
    (h : gmap nat (gmap string cfg_value)) :
  let out := DiffMutableOP_init.__init__ c candidates (Some module_kwargs) h in
  is_ok out.1 = true →
  (∀ name ref op_cfg,
     (name, ref) ∈ candidates → h !! ref = Some op_cfg →
     ∃ op_cfg',
       out.2 !! ref = Some op_cfg' ∧
       op_cfg' = module_kwargs ∪ op_cfg ∧
       (∀ k v, module_kwargs !! k = Some v → op_cfg' !! k = Some v) ∧
       (∀ k, module_kwargs !! k = None → op_cfg' !! k = op_cfg !! k)) ∧
  (∀ ref, ref ∉ candidates.*2 → out.2 !! ref = h !! ref).
Proof.
  intros out Hok. unfold out, DiffMutableOP_init.__init__ in *.
  case_bool_decide as Hlen; [|done].
  unfold DiffMutableOP_init._build_ops in *.
  pose proof (build_loop_store module_kwargs candidates [] h) as Hstore.
  destruct (DiffMutableOP_init.build_loop candidates (Some module_kwargs) [] h)
    as [[ops|e] h'] eqn:Hloop; [|done].
  simpl in *. specialize (Hstore eq_refl). split.
  - intros name ref op_cfg Hin Hcfg. exists (module_kwargs ∪ op_cfg).
    split; [|split; [done|split]].
    + rewrite Hstore, decide_True, Hcfg; [done|].
      apply list_elem_of_fmap. by exists (name, ref).
    + intros k v Hk. by apply lookup_union_Some_l.
    + intros k Hk. by apply lookup_union_r.
  - intros ref Hnot. by rewrite Hstore, decide_False.
Qed.

Lemma C10_init_updates_configs_witness :
  (Demo.configs !! 1) ≫= (.!! "k"%string) = Some "old"%string ∧
  ((DiffMutableOP_init.__init__ DiffMutableOP.IsDiffMutableOP Demo.candidates
      (Some Demo.kwargs) Demo.configs).2 !! 1) ≫= (.!! "k"%string)
    = Some "v"%string ∧
  ((DiffMutableOP_init.__init__ DiffMutableOP.IsDiffMutableOP Demo.candidates
      (Some Demo.kwargs) Demo.configs).2 !! 0) ≫= (.!! "k"%string)
    = Some "v"%string.
Proof.
  split; [vm_compute; reflexivity|].
  destruct (C10_init_updates_configs (H0:=Demo.registry)
              DiffMutableOP.IsDiffMutableOP Demo.candidates Demo.kwargs
              Demo.configs) as [Hupd _]; [vm_compute; reflexivity|].
  split.
  - destruct (Hupd "b"%string 1
                {[ "type"%string := "pool"%string;
                   "k"%string := "old"%string ]})
      as (cfg & Hcfg & -> & _).
    + compute_done.
    + vm_compute. reflexivity.
    + etrans; [exact (f_equal (λ o, o ≫= (.!! "k"%string)) Hcfg)|].
      vm_compute. reflexivity.
  - destruct (Hupd "a"%string 0 {[ "type"%string := "conv"%string ]})
      as (cfg & Hcfg & -> & _).
    + compute_done.
    + vm_compute. reflexivity.
    + etrans; [exact (f_equal (λ o, o ≫= (.!! "k"%string)) Hcfg)|].
      vm_compute. reflexivity.
Defined.

(** * Further properties of the code *)

(** ** The dense and the weighted forward passes *)

Section dense_forward.
Context `{Torch}.

(** [eval_terms] invokes the candidates of its terms from left to right
    and stops after the first one that raises. *)
Lemma eval_terms_log (ts : list term) (w : world) :
  (eval_terms ts w).2 `prefix_of` (t_name <$> ts) ∧
  (is_ok (eval_terms ts w).1.1 = true →
   (eval_terms ts w).2 = t_name <$> ts ∧
   ∃ vs, (eval_terms ts w).1.1 = Ok vs ∧ length vs = length ts).
Proof.
  revert w. induction ts as [|t ts IH]; intros w; simpl.
  - split; [done|]. intros _. split; [done|]. by exists [].
  - destruct (t_module t (t_input t) w) as [[out|e] w1]; simpl.
    + destruct (IH w1) as [Hpre Hok].
      destruct (eval_terms ts w1) as [[[vs|e] w2] log]; simpl in *.
      * split; [by apply prefix_cons|]. intros _.
        destruct (Hok eq_refl) as (-> & vs' & [= <-] & Hlen).
        split; [done|]. exists (term_out t out :: vs). by rewrite <- Hlen.
      * split; [by apply prefix_cons|]. done.
    + split; [|done]. exists (t_name <$> ts). done.
Qed.

Lemma omap_Some_fmap {A B} (f : A → B) (l : list A) :
  omap (λ a, Some (f a)) l = f <$> l.
Proof. induction l as [|a l IH]; [done|]. cbn. by rewrite IH. Qed.

Lemma op_forward_all_run (x : tensor) (s : pystate DiffMutableOP.t) :
  DiffMutableOP.forward_all x s
  = sum_of_terms (all_terms (DiffMutableOP._candidates (self s)) x) s.
Proof.
  unfold DiffMutableOP.forward_all, sum_of_terms, all_terms.
  unfold bind at 1. unfold get at 1. unfold bind at 1.
  rewrite (for_fold_terms (self s)
             (λ '(name, module), Some (Term name module x None))
             (λ l v, l ++ [v])); [| |done].
  - assert (omap (λ '(name, module), Some (Term name module x None))
              (DiffMutableOP._candidates (self s))
            = (λ '(name, module), Term name module x None)
                <$> DiffMutableOP._candidates (self s)) as ->.
    { rewrite <- omap_Some_fmap. apply omap_pointwise. by intros [? ?]. }
    destruct (eval_terms _ (env s)) as [[[vs|e] w] log];
      unfold ret; by rewrite ?fold_left_snoc.
  - by intros acc [name module] s' _ _.
Qed.

(** Three lists walked together. *)
Lemma omap_zip3 {A B C D} (sel : B * (A * C) → option D) (l : list A) :
  ∀ (ps : list B) (xs : list C),
    omap sel (zip ps (zip l xs))
    = omap id (zip_with (λ a '(p, x), sel (p, (a, x))) l (zip ps xs)).
Proof.
  induction l as [|a l IH]; intros [|p ps] [|x xs]; simpl; try done.
  by rewrite IH.
Qed.

Lemma lookup_zip_pair {A B} (l : list A) (k : list B) (i : nat) :
  zip l k !! i
  = match l !! i, k !! i with
    | Some a, Some b => Some (a, b)
    | _, _ => None
    end.
Proof.
  revert k i. induction l as [|a l IH]; intros [|b k] [|i]; simpl; try done.
  by destruct (l !! i).
Qed.

Lemma all_edge_terms_zip (edges : list (string * nn_Module))
    (inputs : list tensor) :
  omap (λ '((name, op), input), Some (Term name op input None))
    (zip edges inputs)
  = all_edge_terms edges inputs.
Proof.
  unfold all_edge_terms. rewrite omap_zip_l.
  rewrite <- (omap_imap_zip _ edges inputs).
  apply omap_pointwise. intros [i [name module]]. by destruct (inputs !! i).
Qed.

Lemma weighted_edge_terms_zip (probs : list Q)
    (edges : list (string * nn_Module)) (inputs : list tensor) :
  omap (λ '(prob, ((name, module), input)),
          if Qgt0 prob then Some (Term name module input (Some prob))
          else None)
    (zip probs (zip edges inputs))
  = weighted_edge_terms probs edges inputs.
Proof.
  unfold weighted_edge_terms. rewrite omap_zip3.
  rewrite <- (omap_imap_zip _ edges (zip probs inputs)).
  apply omap_pointwise. intros [i [name module]].
  rewrite lookup_zip_pair.
  by destruct (probs !! i), (inputs !! i).
Qed.

Lemma route_forward_all_run (x : list tensor)
    (s : pystate DiffChoiceRoute.t) :
  length x = length (DiffChoiceRoute._candidates (self s)) →
  DiffChoiceRoute.forward_all x s
  = sum_of_terms (all_edge_terms (DiffChoiceRoute._candidates (self s)) x) s.
Proof.
  intros Hlen. unfold DiffChoiceRoute.forward_all, sum_of_terms.
  unfold bind at 1. unfold get at 1.
  unfold bind at 1. rewrite bool_decide_true by done.
  unfold py_assert, ret at 1. unfold bind at 1.
  rewrite (for_fold_terms (self s)
             (λ '((name, op), input), Some (Term name op input None))
             (λ l v, l ++ [v])); [| |done].
  - rewrite all_edge_terms_zip.
    destruct (eval_terms _ (env s)) as [[[vs|e] w] log];
      unfold ret; by rewrite ?fold_left_snoc.
  - by intros acc [[name op] input] s' _ _.
Qed.

Lemma route_forward_weighted_run (x : list tensor) (p : list Q)
    (s : pystate DiffChoiceRoute.t) :
  length x = length (DiffChoiceRoute._candidates (self s)) →
  DiffChoiceRoute._with_arch_param (self s) = true →
  DiffChoiceRoute.forward_arch_param x (Some p) s
  = sum_of_terms
      (weighted_edge_terms (softmax p)
         (DiffChoiceRoute._candidates (self s)) x) s.
Proof.
  intros Hlen Hmode.
  unfold DiffChoiceRoute.forward_arch_param, sum_of_terms,
    DiffMutableModule.compute_arch_probs.
  unfold bind at 1. unfold get at 1.
  unfold bind at 1. rewrite bool_decide_true by done.
  unfold py_assert, ret at 1.
  unfold bind at 1. unfold get at 1. rewrite Hmode.
  unfold bind at 1. unfold ret at 1. unfold bind at 1.
  rewrite (for_fold_terms (self s)
             (λ '(prob, ((name, module), input)),
                if Qgt0 prob then Some (Term name module input (Some prob))
                else None)
             (λ l v, l ++ [v])); [| |done].
  - rewrite weighted_edge_terms_zip.
    destruct (eval_terms _ (env s)) as [[[vs|e] w] log];
      unfold ret; by rewrite ?fold_left_snoc.
  - intros acc [prob [[name module] input]] s' _ _. by destruct (Qgt0 prob).
Qed.

Lemma all_edge_terms_names (edges : list (string * nn_Module))
    (inputs : list tensor) :
  length inputs = length edges →
  t_name <$> all_edge_terms edges inputs = keys edges ∧
  t_input <$> all_edge_terms edges inputs = inputs ∧
  t_module <$> all_edge_terms edges inputs = values edges ∧
  Forall (λ t, t_weight t = None) (all_edge_terms edges inputs).
Proof.
  rewrite <- all_edge_terms_zip. unfold keys, values. revert inputs.
  induction edges as [|[name module] edges IH]; intros [|x inputs] Hlen;
    simplify_eq/=; [done|].
  destruct (IH inputs) as (Hn & Hi & Hm & Hw); [done|].
  cbn. rewrite Hn, Hi, Hm. repeat split. by constructor.
Qed.

Lemma weighted_edge_terms_spec (probs : list Q)
    (edges : list (string * nn_Module)) (inputs : list tensor) (t : term) :
  t ∈ weighted_edge_terms probs edges inputs ↔
  ∃ i name module prob x,
    edges !! i = Some (name, module) ∧ probs !! i = Some prob ∧
    inputs !! i = Some x ∧ Qgt0 prob = true ∧
    t = Term name module x (Some prob).
Proof.
  unfold weighted_edge_terms. rewrite list_elem_of_omap. split.
  - intros ([i [name module]] & Hin & Hsel).
    apply elem_of_lookup_imap in Hin as (j & c & Heq & Hj). simplify_eq.
    destruct (probs !! j) as [prob|] eqn:Hp; [|done].
    destruct (inputs !! j) as [x|] eqn:Hx; [|done].
    destruct (Qgt0 prob) eqn:Hgt; [|done]. simplify_eq.
    by exists j, name, module, prob, x.
  - intros (i & name & module & prob & x & Hc & Hp & Hx & Hgt & ->).
    exists (i, (name, module)). split.
    + apply elem_of_lookup_imap. by exists i, (name, module).
    + by rewrite Hp, Hx, Hgt.
Qed.
End dense_forward.

Section calls_of_a_sum.
Context `{Torch} {Self : Type}.

(** A forward pass that is a sum of terms leaves the instance alone and
    appends to the log the names of the candidates it invoked: a prefix
    of the names of the terms, all of them when it returns. *)
Lemma sum_of_terms_calls (ts : list term) (s : pystate Self) :
  self (sum_of_terms ts s).2 = self s ∧
  ∃ log,
    calls (sum_of_terms ts s).2 = calls s ++ log ∧
    log `prefix_of` (t_name <$> ts) ∧
    (is_ok (sum_of_terms ts s).1 = true → log = t_name <$> ts).
Proof.
  unfold sum_of_terms.
  destruct (eval_terms_log ts (env s)) as [Hpre Hok].
  destruct (eval_terms ts (env s)) as [[[vs|e] w] log]; simpl in *.
  - split; [done|]. exists log. split; [done|]. split; [done|].
    intros _. by destruct (Hok eq_refl).
  - split; [done|]. exists log. by split.
Qed.
End calls_of_a_sum.

(** X1. [DiffMutableOP.forward_all(x)] (fixed or not, either class) is
    the unweighted sum over all current candidates in insertion order. It
    does not change the instance; it invokes the candidates in insertion
    order, stopping at the first that raises, and when it returns it has
    invoked every candidate exactly once. *)
Theorem X1_op_forward_all `{Torch} (x : tensor)
    (s : pystate DiffMutableOP.t) :
  let candidates := DiffMutableOP._candidates (self s) in
  let out := DiffMutableOP.forward_all x s in
  out = sum_of_terms (all_terms candidates x) s ∧
  self out.2 = self s ∧
  (∃ log, calls out.2 = calls s ++ log ∧ log `prefix_of` keys candidates) ∧
  (is_ok out.1 = true → calls out.2 = calls s ++ keys candidates).
Proof.
  intros candidates out. unfold out. rewrite op_forward_all_run.
  fold candidates.
  assert (t_name <$> all_terms candidates x = keys candidates) as Hnames.
  { unfold all_terms, keys. rewrite <- list_fmap_compose.
    apply list_fmap_ext. by intros i [? ?] _. }
  destruct (sum_of_terms_calls (all_terms candidates x) s)
    as (Hself & log & Hcalls & Hpre & Hall).
  rewrite Hnames in Hpre, Hall.
  split; [done|]. split; [done|]. split; [by exists log|].
  intros Hok. rewrite Hcalls. by rewrite (Hall Hok).
Qed.

(** X2. [DiffChoiceRoute.forward_all(inputs)] with as many inputs as
    edges is the unweighted sum of edge number i applied to input number
    i, over all edges in insertion order; it does not change the instance
    and, when it returns, has invoked every edge exactly once, in
    order. *)
Theorem X2_route_forward_all `{Torch} (x : list tensor)
    (s : pystate DiffChoiceRoute.t) :
  length x = length (DiffChoiceRoute._candidates (self s)) →
  let edges := DiffChoiceRoute._candidates (self s) in
  let terms := all_edge_terms edges x in
  let out := DiffChoiceRoute.forward_all x s in
  out = sum_of_terms terms s ∧
  t_name <$> terms = keys edges ∧
  t_module <$> terms = values edges ∧
  t_input <$> terms = x ∧
  Forall (λ t, t_weight t = None) terms ∧
  self out.2 = self s ∧
  (is_ok out.1 = true → calls out.2 = calls s ++ keys edges).
Proof.
  intros Hlen edges terms out. unfold out.
  rewrite route_forward_all_run by done. fold edges terms.
  destruct (all_edge_terms_names edges x Hlen) as (Hn & Hi & Hm & Hw).
  destruct (sum_of_terms_calls terms s)
    as (Hself & log & Hcalls & Hpre & Hall).
  repeat split; try done.
  intros Hok. rewrite Hcalls, (Hall Hok). unfold terms. by rewrite Hn.
Qed.

Lemma X2_route_forward_all_witness :
  DiffChoiceRoute.forward_all [1; 2; 3]%Q (Demo.start (Demo.route true))
  = (Ok 321%Q, PyState (Demo.route true) 3 ["a"; "b"; "c"]%string).
Proof.
  destruct (X2_route_forward_all (H:=Demo.torch) [1; 2; 3]%Q
              (Demo.start (Demo.route true))) as (Hrun & _);
    [reflexivity|].
  etrans; [exact Hrun|]. vm_compute. reflexivity.
Defined.

(** X3. In differentiable mode ([with_arch_param=True]), with as many
    inputs as edges, [DiffChoiceRoute.forward_arch_param(inputs,
    arch_param)] is the sum of [prob * edge(input)] over the positions
    that hold an edge, an input and a strictly positive entry of
    [softmax(arch_param)]; an edge whose entry is missing or not positive
    is never invoked, and the instance is not changed. *)
Theorem X3_route_weighted_sum `{Torch} (x : list tensor) (p : list Q)
    (s : pystate DiffChoiceRoute.t) :
  length x = length (DiffChoiceRoute._candidates (self s)) →
  DiffChoiceRoute._with_arch_param (self s) = true →
  let edges := DiffChoiceRoute._candidates (self s) in
  let terms := weighted_edge_terms (softmax p) edges x in
  let out := DiffChoiceRoute.forward_arch_param x (Some p) s in
  out = sum_of_terms terms s ∧
  (∀ t, t ∈ terms ↔
     ∃ i name module prob input,
       edges !! i = Some (name, module) ∧ softmax p !! i = Some prob ∧
       x !! i = Some input ∧ Qgt0 prob = true ∧
       t = Term name module input (Some prob)) ∧
  self out.2 = self s ∧
  (∃ log, calls out.2 = calls s ++ log ∧
          log `prefix_of` (t_name <$> terms)).
Proof.
  intros Hlen Hmode edges terms out. unfold out.
  rewrite route_forward_weighted_run by done. fold edges terms.
  destruct (sum_of_terms_calls terms s)
    as (Hself & log & Hcalls & Hpre & _).
  split; [done|]. split; [intros t; apply weighted_edge_terms_spec|].
  split; [done|]. by exists log.
Qed.

Lemma X3_route_weighted_sum_witness :
  DiffChoiceRoute.forward_arch_param [1; 2; 3]%Q (Some [0; 200; 0]%Q)
    (Demo.start (Demo.route true))
  = (Ok 20%Q, PyState (Demo.route true) 1 ["b"%string]).
Proof.
  destruct (X3_route_weighted_sum (H:=Demo.torch) [1; 2; 3]%Q
              [0; 200; 0]%Q (Demo.start (Demo.route true))) as (Hrun & _);
    [reflexivity..|].
  etrans; [exact Hrun|]. vm_compute. reflexivity.
Defined.

(** X4. In differentiable mode, [DiffChoiceRoute.forward_arch_param]
    (and [forward] on an unfixed route) called without an architecture
    parameter and with as many inputs as edges raises out of
    [compute_arch_probs], before any edge is invoked and without changing
    anything. *)
Theorem X4_route_missing_parameter `{Torch} (x : list tensor)
    (s : pystate DiffChoiceRoute.t) :
  length x = length (DiffChoiceRoute._candidates (self s)) →
  DiffChoiceRoute._with_arch_param (self s) = true →
  DiffChoiceRoute.forward_arch_param x None s = (Raise AttributeError, s) ∧
  (DiffChoiceRoute._is_fixed (self s) = false →
   DiffMutableModule.forward x None s = (Raise AttributeError, s)).
Proof.
  intros Hlen Hmode.
  assert (DiffChoiceRoute.forward_arch_param x None s
          = (Raise AttributeError, s)) as Hrun.
  { unfold DiffChoiceRoute.forward_arch_param.
    unfold bind at 1. unfold get at 1.
    unfold bind at 1. rewrite bool_decide_true by done.
    unfold py_assert, ret at 1.
    unfold bind at 1. unfold get at 1. by rewrite Hmode. }
  split; [done|]. intros Hunfixed.
  unfold DiffMutableModule.forward, BaseMutable.is_fixed.
  unfold bind at 1. unfold get at 1. simpl. by rewrite Hunfixed.
Qed.

Lemma X4_route_missing_parameter_witness :
  DiffMutableModule.forward [1; 2; 3]%Q None (Demo.start (Demo.route true))
  = (Raise AttributeError, Demo.start (Demo.route true)).
Proof.
  destruct (X4_route_missing_parameter (H:=Demo.torch) [1; 2; 3]%Q
              (Demo.start (Demo.route true))) as (_ & Hrun);
    [reflexivity..|].
  exact (Hrun eq_refl).
Defined.

(** ** [fix_chosen] and [forward_fixed] at the edges *)

Section unknown_names.
Context `{Torch}.

Lemma for_fold_app {Self A B} (l1 l2 : list A) (body : B → A → M Self B)
    (acc : B) (s : pystate Self) :
  for_fold (l1 ++ l2) acc body s
  = (let! acc' := for_fold l1 acc body in for_fold l2 acc' body) s.
Proof.
  revert acc s. induction l1 as [|a l1 IH]; intros acc s; simpl.
  - done.
  - unfold bind. destruct (body acc a s) as [[acc'|e] s']; [|done].
    rewrite IH. by unfold bind.
Qed.

Lemma filter_nothing {A} (P : A → Prop) `{!∀ a, Decision (P a)}
    (l : list A) :
  (∀ a, a ∈ l → ¬ P a) → filter P l = [].
Proof.
  induction l as [|a l IH]; intros HP; [done|].
  rewrite filter_cons_False by (apply HP; by left).
  apply IH. intros b Hb. apply HP. by right.
Qed.

(** [forward_fixed] of a [DiffMutableOP] whose chosen sequence runs into a
    name that is not a key of the dictionary. *)
Lemma op_forward_fixed_unknown (candidates : list (string * nn_Module))
    (pre post : list string) (bad : string) x
    (s : pystate DiffMutableOP.t) :
  DiffMutableOP._chosen (self s) = Some (pre ++ bad :: post) →
  (∀ c, c ∈ pre →
     is_Some (dict_get c candidates) ∧
     dict_get c (DiffMutableOP._candidates (self s)) = dict_get c candidates) →
  dict_get bad (DiffMutableOP._candidates (self s)) = None →
  DiffMutableOP.forward_fixed x s
  = match eval_terms (chosen_terms candidates pre x) (env s) with
    | (Ok _, w, log) =>
        (Raise KeyError, PyState (self s) w (calls s ++ log))
    | (Raise e, w, log) => (Raise e, PyState (self s) w (calls s ++ log))
    end.
Proof.
  intros Hchosen Hpre Hbad. unfold DiffMutableOP.forward_fixed.
  unfold bind at 1. unfold get at 1. rewrite Hchosen.
  rewrite for_fold_app. unfold bind at 1.
  rewrite (for_fold_terms (self s)
             (λ name, (λ module, Term name module x None)
                        <$> dict_get name candidates) py_add); [| |done].
  - fold (chosen_terms candidates pre x).
    destruct (eval_terms _ (env s)) as [[[vs|e] w] log]; [|done].
    simpl. unfold DiffMutableOP.getitem, bind, get. simpl.
    by rewrite Hbad.
  - intros total c s' Hc Hs'.
    destruct (Hpre c Hc) as [[module Hm] Heq].
    unfold DiffMutableOP.getitem.
    unfold bind at 1. unfold bind at 1. unfold get at 1.
    rewrite Hs', Heq, Hm. simpl. done.
Qed.

Lemma dict_get_None (d : list (string * nn_Module)) (k : string) :
  k ∉ keys d → dict_get k d = None.
Proof.
  unfold keys. induction d as [|[k' a] d IH]; [done|].
  rewrite fmap_cons, not_elem_of_cons. simpl. intros [Hne Hnot].
  rewrite decide_False by done. by apply IH.
Qed.
End unknown_names.

(** X5. [fix_chosen] does not validate its argument. On an unfixed
    instance of any of the three classes it returns normally for every
    chosen value: the candidates that remain are those whose name is
    chosen, the argument is recorded as it is (names that are no
    candidates included), and when no chosen name is a candidate the
    instance is left with no candidate at all. *)
Theorem X5_fix_chosen_any_names `{Torch} :
  (∀ (o : DiffMutableOP.t) (chosen : str_or_list) w log,
     dict_wf (DiffMutableOP._candidates o) →
     DiffMutableOP._is_fixed o = false →
     ∃ o',
       DiffMutableOP.fix_chosen chosen (PyState o w log)
         = (Ok tt, PyState o' w log) ∧
       DiffMutableOP._candidates o'
         = filter (λ kv, kv.1 ∈ normalize_chosen chosen)
             (DiffMutableOP._candidates o) ∧
       DiffMutableOP._chosen o' = Some (normalize_chosen chosen) ∧
       DiffMutableOP._is_fixed o' = true ∧
       ((∀ k, k ∈ normalize_chosen chosen →
              k ∉ keys (DiffMutableOP._candidates o)) →
        DiffMutableOP._candidates o' = [])) ∧
  (∀ (r : DiffChoiceRoute.t) (chosen : list string) w log,
     dict_wf (DiffChoiceRoute._candidates r) →
     DiffChoiceRoute._is_fixed r = false →
     ∃ r',
       DiffChoiceRoute.fix_chosen chosen (PyState r w log)
         = (Ok tt, PyState r' w log) ∧
       DiffChoiceRoute._candidates r'
         = filter (λ kv, kv.1 ∈ chosen) (DiffChoiceRoute._candidates r) ∧
       DiffChoiceRoute._chosen r' = Some chosen ∧
       DiffChoiceRoute._unfixed_choices r'
         = Some (keys (DiffChoiceRoute._candidates r)) ∧
       DiffChoiceRoute._is_fixed r' = true ∧
       ((∀ k, k ∈ chosen → k ∉ keys (DiffChoiceRoute._candidates r)) →
        DiffChoiceRoute._candidates r' = [])).
Proof.
  split.
  - intros o chosen w log Hwf Hunfixed.
    eexists. split; [by apply op_fix_chosen_run|]. simpl.
    repeat split. intros Hnone. apply filter_nothing.
    intros [k m] Hin Hk. simpl in Hk. apply (Hnone k Hk).
    unfold keys. apply list_elem_of_fmap. by exists (k, m).
  - intros r chosen w log Hwf Hunfixed.
    eexists. split; [by apply route_fix_chosen_run|]. simpl.
    repeat split. intros Hnone. apply filter_nothing.
    intros [k m] Hin Hk. simpl in Hk. apply (Hnone k Hk).
    unfold keys. apply list_elem_of_fmap. by exists (k, m).
Qed.

Lemma X5_fix_chosen_any_names_witness :
  (∃ o',
     DiffMutableOP.fix_chosen (PyStr "z")
       (Demo.start (Demo.op DiffMutableOP.IsDiffMutableOP))
       = (Ok tt, PyState o' 0 []) ∧
     DiffMutableOP._candidates o' = [] ∧
     DiffMutableOP._chosen o' = Some ["z"%string]) ∧
  (∃ r',
     DiffChoiceRoute.fix_chosen [] (Demo.start (Demo.route false))
       = (Ok tt, PyState r' 0 []) ∧
     DiffChoiceRoute._candidates r' = []).
Proof.
  split.
  - destruct (proj1 (X5_fix_chosen_any_names (H:=Demo.torch))
                (Demo.op DiffMutableOP.IsDiffMutableOP) (PyStr "z") 0 [])
      as (o' & Hrun & _ & Hchosen & _ & Hnone);
      [exact demo_edges_wf|reflexivity|].
    exists o'. split; [exact Hrun|]. split; [|exact Hchosen].
    apply Hnone. intros k Hk Hin. revert Hk Hin. simpl.
    rewrite list_elem_of_singleton. intros ->. compute_done.
  - destruct (proj2 (X5_fix_chosen_any_names (H:=Demo.torch))
                (Demo.route false) [] 0 [])
      as (r' & Hrun & _ & _ & _ & _ & Hnone);
      [exact demo_edges_wf|reflexivity|].
    exists r'. split; [exact Hrun|].
    apply Hnone. intros k Hk. by apply elem_of_nil in Hk.
Defined.

(** X6. A [DiffMutableOP] fixed with a sequence in which a name that is
    no candidate follows names that are: [forward_fixed(x)] invokes the
    candidates of the names before it, in order, and then raises
    [KeyError] (unless one of those candidates raised first). The
    instance is not changed. *)
Theorem X6_op_forward_fixed_unknown_name `{Torch} (o : DiffMutableOP.t)
    (pre post : list string) (bad : string) (x : tensor) (w : world)
    (log : list string) :
  dict_wf (DiffMutableOP._candidates o) →
  DiffMutableOP._is_fixed o = false →
  pre ⊆ keys (DiffMutableOP._candidates o) →
  bad ∉ keys (DiffMutableOP._candidates o) →
  ∃ o',
    DiffMutableOP.fix_chosen (PyList (pre ++ bad :: post)) (PyState o w log)
      = (Ok tt, PyState o' w log) ∧
    ∀ w' log',
      DiffMutableOP.forward_fixed x (PyState o' w' log')
      = match eval_terms (chosen_terms (DiffMutableOP._candidates o) pre x)
                w' with
        | (Ok _, w'', called) =>
            (Raise KeyError, PyState o' w'' (log' ++ called))
        | (Raise e, w'', called) =>
            (Raise e, PyState o' w'' (log' ++ called))
        end.
Proof.
  intros Hwf Hunfixed Hpre Hbad.
  eexists. split; [by apply op_fix_chosen_run|].
  intros w' log'. apply (op_forward_fixed_unknown _ pre post bad); simpl.
  - done.
  - intros c Hc. split; [by apply dict_get_is_Some, Hpre|].
    assert (c ∈ pre ++ bad :: post) as Hin by (apply elem_of_app; by left).
    exact (dict_get_filter (.∈ pre ++ bad :: post) c _ Hin).
  - apply dict_get_None.
    pose proof (keys_filter (.∈ pre ++ bad :: post)
                  (DiffMutableOP._candidates o)) as Hkeys.
    simpl in Hkeys. rewrite Hkeys. intros [_ Hin]%list_elem_of_filter.
    by apply Hbad.
Qed.

Lemma X6_op_forward_fixed_unknown_name_witness :
  ∃ o',
    DiffMutableOP.fix_chosen (PyList ["b"; "z"; "a"]%string)
      (Demo.start (Demo.op DiffMutableOP.IsDiffMutableOP))
      = (Ok tt, PyState o' 0 []) ∧
    DiffMutableOP.forward_fixed 1%Q (PyState o' 0 [])
      = (Raise KeyError, PyState o' 1 ["b"%string]).
Proof.
  destruct (X6_op_forward_fixed_unknown_name (H:=Demo.torch)
              (Demo.op DiffMutableOP.IsDiffMutableOP)
              ["b"%string] ["a"%string] "z"%string 1%Q 0 [])
    as (o' & Hfix & Hrun).
  - exact demo_edges_wf.
  - reflexivity.
  - compute_done.
  - compute_done.
  - exists o'. split; [exact Hfix|]. etrans; [exact (Hrun 0 [])|].
    vm_compute. reflexivity.
Defined.

(** X7. A [DiffChoiceRoute] may be fixed with names that are no edges:
    [forward_fixed] never looks them up. For every chosen sequence it
    returns the sum over the edges of the ordering before fixing whose
    name is chosen, each on the input at its position. *)
Theorem X7_route_forward_fixed_any_names `{Torch} (r : DiffChoiceRoute.t)
    (chosen : list string) (inputs : list tensor) (w : world)
    (log : list string) :
  dict_wf (DiffChoiceRoute._candidates r) →
  DiffChoiceRoute._is_fixed r = false →
  ∃ r',
    DiffChoiceRoute.fix_chosen chosen (PyState r w log)
      = (Ok tt, PyState r' w log) ∧
    ∀ w' log' arch_param,
      DiffMutableModule.forward inputs arch_param (PyState r' w' log')
      = sum_of_terms
          (chosen_edge_terms (DiffChoiceRoute._candidates r) chosen inputs)
          (PyState r' w' log').
Proof.
  intros Hwf Hunfixed.
  eexists. split; [by apply route_fix_chosen_run|].
  intros w' log' arch_param.
  unfold DiffMutableModule.forward, BaseMutable.is_fixed.
  unfold bind at 1. unfold get at 1. simpl.
  apply route_forward_fixed_run; simpl; try done.
  intros c Hc. exact (dict_get_filter (.∈ chosen) c _ Hc).
Qed.

Lemma X7_route_forward_fixed_any_names_witness :
  ∃ r' : DiffChoiceRoute.t,
    DiffChoiceRoute.fix_chosen ["z"; "c"]%string
      (Demo.start (Demo.route true))
      = (Ok tt, PyState r' 0 []) ∧
    DiffMutableModule.forward (Self:=DiffChoiceRoute.t) [1; 2; 3]%Q None
      (PyState r' 0 [])
      = (Ok 300%Q, PyState r' 1 ["c"%string]).
Proof.
  destruct (X7_route_forward_fixed_any_names (H:=Demo.torch)
              (Demo.route true) ["z"; "c"]%string [1; 2; 3]%Q 0 [])
    as (r' & Hfix & Hrun); [exact demo_edges_wf|reflexivity|].
  exists r'. split; [exact Hfix|]. etrans; [exact (Hrun 0 [] None)|].
  vm_compute. reflexivity.
Defined.

(** X8. Fixing a [DiffMutableOP] is final. After one [fix_chosen] on an
    unfixed instance, every further [fix_chosen], whatever its argument,
    raises [AttributeError] and changes nothing: not the candidates, not
    the chosen names, not the state around the instance. *)
Theorem X8_op_fix_is_final `{Torch} (o : DiffMutableOP.t)
    (first : str_or_list) (w : world) (log : list string) :
  dict_wf (DiffMutableOP._candidates o) →
  DiffMutableOP._is_fixed o = false →
  ∃ o',
    DiffMutableOP.fix_chosen first (PyState o w log)
      = (Ok tt, PyState o' w log) ∧
    ∀ again w' log',
      DiffMutableOP.fix_chosen again (PyState o' w' log')
      = (Raise AttributeError, PyState o' w' log').
Proof.
  intros Hwf Hunfixed.
  eexists. split; [by apply op_fix_chosen_run|].
  intros again w' log'. by apply op_refix_run.
Qed.

Lemma X8_op_fix_is_final_witness :
  ∃ o',
    DiffMutableOP.fix_chosen (PyStr "a")
      (Demo.start (Demo.op DiffMutableOP.IsDiffMutableOP))
      = (Ok tt, PyState o' 0 []) ∧
    DiffMutableOP.fix_chosen (PyList ["b"; "c"]%string) (PyState o' 0 [])
      = (Raise AttributeError, PyState o' 0 []).
Proof.
  destruct (X8_op_fix_is_final (H:=Demo.torch)
              (Demo.op DiffMutableOP.IsDiffMutableOP) (PyStr "a") 0 [])
    as (o' & Hfix & Hagain); [exact demo_edges_wf|reflexivity|].
  exists o'. split; [exact Hfix|]. apply Hagain.
Defined.

(** X9. On a fixed [DiffChoiceRoute], [fix_chosen] raises
    [AttributeError] whatever its argument. It leaves the candidates, the
    chosen names, the mode flag and the state around the instance as they
    are, and sets [_unfixed_choices] to the current keys; a further call
    changes nothing more. From then on [forward_fixed] pairs the surviving
    edges with the first inputs, in their order. *)
Theorem X9_route_refix `{Torch} (chosen : list string)
    (s : pystate DiffChoiceRoute.t) :
  DiffChoiceRoute._is_fixed (self s) = true →
  let out := DiffChoiceRoute.fix_chosen chosen s in
  let r := self s in
  let r' := self out.2 in
  out.1 = Raise AttributeError ∧
  env out.2 = env s ∧ calls out.2 = calls s ∧
  DiffChoiceRoute._candidates r' = DiffChoiceRoute._candidates r ∧
  DiffChoiceRoute._chosen r' = DiffChoiceRoute._chosen r ∧
  DiffChoiceRoute._is_fixed r' = true ∧
  DiffChoiceRoute._with_arch_param r' = DiffChoiceRoute._with_arch_param r ∧
  DiffChoiceRoute.num_chosen r' = DiffChoiceRoute.num_chosen r ∧
  DiffChoiceRoute._unfixed_choices r'
    = Some (keys (DiffChoiceRoute._candidates r)) ∧
  (∀ again, DiffChoiceRoute.fix_chosen again out.2
            = (Raise AttributeError, out.2)) ∧
  (∀ names inputs,
     dict_wf (DiffChoiceRoute._candidates r) →
     DiffChoiceRoute._chosen r = Some names →
     DiffChoiceRoute.forward_fixed inputs out.2
     = sum_of_terms
         (chosen_edge_terms (DiffChoiceRoute._candidates r) names inputs)
         out.2).
Proof.
  intros Hfixed. cbv zeta.
  rewrite route_refix_run by done. simpl.
  do 9 (split; [done|]). split.
  - intros again. by rewrite route_refix_run.
  - intros names inputs Hwf Hnames.
    by apply route_forward_fixed_run.
Qed.

Lemma X9_route_refix_witness :
  let s1 := (DiffChoiceRoute.fix_chosen ["c"]%string
               (Demo.start (Demo.route false))).2 in
  (DiffChoiceRoute.forward_fixed [1; 2; 3]%Q s1).1 = Ok 300%Q ∧
  (DiffChoiceRoute.forward_fixed [1; 2; 3]%Q
     (DiffChoiceRoute.fix_chosen [] s1).2).1 = Ok 100%Q.
Proof.
  intros s1. split; [vm_compute; reflexivity|].
  destruct (X9_route_refix (H:=Demo.torch) [] s1)
    as (_ & _ & _ & _ & _ & _ & _ & _ & _ & _ & Hrun);
    [vm_compute; reflexivity|].
  rewrite (Hrun ["c"%string] [1; 2; 3]%Q).
  - vm_compute. reflexivity.
  - unfold dict_wf, s1. compute_done.
  - vm_compute. reflexivity.
Defined.

(** ** Construction of a [DiffMutableOP], in full *)

Section build_ops.
Context `{Registry}.

Lemma dict_set_fresh {A} (k : string) (a : A) (d : list (string * A)) :
  k ∉ keys d → dict_set k a d = d ++ [(k, a)].
Proof.
  unfold keys. induction d as [|[k' a'] d IH]; [done|].
  rewrite fmap_cons, not_elem_of_cons. simpl. intros [Hne Hnot].
  rewrite decide_False by done. by rewrite IH.
Qed.

Lemma update_twice (kw : option (gmap string cfg_value))
    (o : option (gmap string cfg_value)) :
  default id (union <$> kw) <$> (default id (union <$> kw) <$> o)
  = default id (union <$> kw) <$> o.
Proof.
  destruct o as [cfg|]; [|done]. destruct kw as [k|]; simpl; [|done].
  by rewrite union_twice.
Qed.

(** One run of the loop of [_build_ops] over candidates whose names are
    new to [ops]: what it returns and what it leaves in the store. *)
Lemma build_loop_run (kw : option (gmap string cfg_value))
    (items : list (string * nat)) :
  ∀ ops (h : gmap nat (gmap string cfg_value)),
    NoDup (keys ops ++ items.*1) →
    let upd := default id (union <$> kw) in
    match DiffMutableOP_init.build_loop items kw ops h with
    | (Ok ops', h') =>
        (∃ built,
           ops' = ops ++ built ∧
           Forall2 (λ c b, b.1 = c.1 ∧ MODELS_build (h' !!! c.2) = Ok b.2)
             items built) ∧
        ∀ ref, h' !! ref
               = if decide (ref ∈ items.*2) then upd <$> h !! ref
                 else h !! ref
    | (Raise e, h') =>
        ∃ done name ref rest,
          items = done ++ (name, ref) :: rest ∧
          MODELS_build (h' !!! ref) = Raise e ∧
          ∀ x, h' !! x
               = if decide (x ∈ (done ++ [(name, ref)]).*2)
                 then upd <$> h !! x else h !! x
    end.
Proof.
  induction items as [|[name ref] items IH]; intros ops h Hnd upd.
  - simpl. split; [|done]. exists []. by rewrite app_nil_r.
  - rewrite fmap_cons in Hnd. simpl in Hnd.
    assert (name ∉ keys ops) as Hfresh.
    { apply NoDup_app in Hnd as (_ & Hdis & _). intros Hin.
      apply (Hdis name Hin). by left. }
    simpl. rewrite bool_decide_false by done.
    set (h1 := match kw with
               | Some kw0 => DiffMutableOP_init.update_cfg ref kw0 h
               | None => h
               end).
    assert (∀ x, h1 !! x = if decide (x = ref) then upd <$> h !! x
                           else h !! x) as Hh1.
    { intros x. unfold h1, upd. destruct kw as [k|]; simpl.
      - unfold DiffMutableOP_init.update_cfg.
        destruct (decide (x = ref)) as [->|Hne].
        + by rewrite lookup_alter_eq.
        + by rewrite lookup_alter_ne.
      - destruct (decide (x = ref)); [|done]. by destruct (h !! x). }
    destruct (MODELS_build (h1 !!! ref)) as [module|e] eqn:Hbuild.
    + rewrite dict_set_fresh by done.
      assert (NoDup (keys (ops ++ [(name, module)]) ++ items.*1)) as Hnd2.
      { unfold keys in *. rewrite fmap_app. simpl.
        by rewrite <- app_assoc. }
      specialize (IH (ops ++ [(name, module)]) h1 Hnd2). simpl in IH.
      destruct (DiffMutableOP_init.build_loop items kw
                  (ops ++ [(name, module)]) h1) as [[ops'|e] h'].
      * destruct IH as [(built & -> & Hbuilt) Hstore].
        assert (∀ x, h' !! x
                     = if decide (x ∈ ref :: items.*2) then upd <$> h !! x
                       else h !! x) as Hstore'.
        { intros x. rewrite Hstore, Hh1. fold upd.
          destruct (decide (x = ref)) as [->|Hne].
          - rewrite (decide_True (P:=ref ∈ ref :: items.*2)) by (by left).
            destruct (decide (ref ∈ items.*2)); [|done].
            apply update_twice.
          - destruct (decide (x ∈ items.*2)) as [Hin|Hin].
            + rewrite decide_True; [done|by right].
            + rewrite decide_False; [done|].
              by intros [?|?]%elem_of_cons. }
        split; [|exact Hstore'].
        exists ((name, module) :: built). split.
        { by rewrite <- app_assoc. }
        constructor; [|done]. simpl. split; [done|].
        rewrite <- Hbuild. f_equal.
        rewrite !lookup_total_alt, Hstore, Hh1. fold upd.
        destruct (decide (ref = ref)); [|done].
        destruct (decide (ref ∈ items.*2)); [|done].
        unfold upd. by rewrite update_twice.
      * destruct IH as (done & name' & ref' & rest & -> & Hfail & Hstore).
        exists ((name, ref) :: done), name', ref', rest.
        split; [done|]. split; [done|].
        intros x. rewrite Hstore, Hh1. fold upd.
        change (((name, ref) :: done) ++ [(name', ref')])
          with ((name, ref) :: (done ++ [(name', ref')])).
        rewrite fmap_cons. simpl.
        destruct (decide (x = ref)) as [->|Hne].
        -- rewrite (decide_True (P:=ref ∈ ref :: _)) by (by left).
           destruct (decide (ref ∈ (done ++ [(name', ref')]).*2)); [|done].
           apply update_twice.
        -- destruct (decide (x ∈ (done ++ [(name', ref')]).*2)) as [Hin|Hin].
           ++ rewrite decide_True; [done|by right].
           ++ rewrite decide_False; [done|].
              by intros [?|?]%elem_of_cons.
    + exists [], name, ref, items. split; [done|]. split; [done|].
      intros x. rewrite Hh1. simpl.
      destruct (decide (x = ref)) as [->|Hne].
      * by rewrite decide_True by (by left).
      * rewrite decide_False; [done|].
        by intros [?|?%elem_of_nil]%elem_of_cons.
Qed.
End build_ops.

(** X10. A completed construction of a [DiffMutableOP] (either class,
    with or without [module_kwargs]) from candidates with distinct names
    yields an unfixed instance with no chosen names, whose candidates carry
    the names of the argument in the same order; the module under a name
    is what [MODELS.build] makes of the candidate's configuration as the
    construction leaves it in the caller's store. *)
Theorem X10_init_builds_every_candidate `{Registry}
    (c : DiffMutableOP.cls) (candidates : list (string * nat))
    (module_kwargs : option (gmap string cfg_value))
    (h : gmap nat (gmap string cfg_value)) :
  NoDup candidates.*1 →
  let out := DiffMutableOP_init.__init__ c candidates module_kwargs h in
  is_ok out.1 = true →
  ∃ o,
    out.1 = Ok o ∧
    DiffMutableOP.class_of o = c ∧
    DiffMutableOP._is_fixed o = false ∧
    DiffMutableOP._chosen o = None ∧
    keys (DiffMutableOP._candidates o) = candidates.*1 ∧
    1 ≤ length (DiffMutableOP._candidates o) ∧
    Forall2 (λ cand built,
               built.1 = cand.1 ∧
               MODELS_build (out.2 !!! cand.2) = Ok built.2)
      candidates (DiffMutableOP._candidates o).
Proof.
  intros Hnd out Hok. unfold out, DiffMutableOP_init.__init__ in *.
  case_bool_decide as Hlen; [|done].
  unfold DiffMutableOP_init._build_ops in *.
  pose proof (build_loop_run module_kwargs candidates [] h Hnd) as Hrun.
  simpl in Hrun.
  destruct (DiffMutableOP_init.build_loop candidates module_kwargs [] h)
    as [[ops|e] h']; [|done].
  destruct Hrun as [(built & -> & Hbuilt) _]. simpl in *.
  eexists. split; [done|]. simpl. repeat split; try done.
  - unfold keys. clear Hok Hlen Hnd.
    induction Hbuilt as [|cand b cs bs [Hname _] _ IH]; [done|].
    rewrite !fmap_cons. by rewrite Hname, IH.
  - apply Forall2_length in Hbuilt. lia.
Qed.

Lemma X10_init_builds_every_candidate_witness :
  ∃ o,
    (DiffMutableOP_init.__init__ DiffMutableOP.IsOneHotMutableOP
       Demo.candidates None Demo.configs).1 = Ok o ∧
    keys (DiffMutableOP._candidates o) = ["a"; "b"]%string.
Proof.
  destruct (X10_init_builds_every_candidate (H0:=Demo.registry)
              DiffMutableOP.IsOneHotMutableOP Demo.candidates None
              Demo.configs) as (o & Hout & _ & _ & _ & Hkeys & _).
  - compute_done.
  - vm_compute. reflexivity.
  - exists o. split; [exact Hout|]. exact Hkeys.
Defined.



(** X12. Without [module_kwargs] a construction of a [DiffMutableOP]
    never writes to the caller's store, whether it completes or fails. *)
Theorem X12_init_without_kwargs_keeps_store `{Registry}
    (c : DiffMutableOP.cls) (candidates : list (string * nat))
    (h : gmap nat (gmap string cfg_value)) :
  (DiffMutableOP_init.__init__ c candidates None h).2 = h.
Proof.
  unfold DiffMutableOP_init.__init__, DiffMutableOP_init._build_ops.
  case_bool_decide; [|done].
  pose proof (build_loop_store_None candidates [] h) as Hstore.
  by destruct (DiffMutableOP_init.build_loop candidates None [] h)
    as [[ops|e] h'].
Qed.

(** ** Choosing, then fixing *)

Section choose.
Context `{Torch}.

Lemma op_sample_choice_run `{TorchArgmax} (p : list Q)
    (s : pystate DiffMutableOP.t) :
  DiffMutableOP_sample.sample_choice p s
  = match keys (DiffMutableOP._candidates (self s)) !! argmax p with
    | Some c => (Ok c, s)
    | None => (Raise IndexError, s)
    end.
Proof.
  unfold DiffMutableOP_sample.sample_choice, DiffMutableOP.choices.
  unfold bind at 1. unfold get at 1.
  by destruct (keys _ !! argmax p).
Qed.

(** The sum over a single chosen name. *)
Lemma chosen_terms_one (candidates : list (string * nn_Module))
    (i : nat) (name : string) (module : nn_Module) (x : tensor) :
  dict_wf candidates → candidates !! i = Some (name, module) →
  chosen_terms candidates [name] x = [Term name module x None].
Proof.
  intros Hwf Hi. unfold chosen_terms. cbn.
  by rewrite (dict_get_Some_lookup candidates i name module).
Qed.

(** [sample_choice] of a route for any [num_chosen]: the names at the
    positions selected by the slice. *)
Lemma sample_choice_slice (p : list Q) (s : pystate DiffChoiceRoute.t) :
  length p = length (DiffChoiceRoute._candidates (self s)) →
  argsort_spec (Qopp <$> p) (argsort (Qopp <$> p)) →
  let cs := keys (DiffChoiceRoute._candidates (self s)) in
  let idx := py_slice_to (argsort (Qopp <$> p))
               (DiffChoiceRoute.num_chosen (self s)) in
  ∃ names,
    DiffChoiceRoute.sample_choice p s = (Ok names, s) ∧
    Forall2 (λ i name, cs !! i = Some name) idx names.
Proof.
  intros Hlen Hspec cs idx.
  apply argsort_neg_descending in Hspec as [Hperm _].
  assert (∀ i, i ∈ idx → is_Some (cs !! i)) as Hrange.
  { intros i Hi. apply lookup_lt_is_Some.
    unfold cs, keys. rewrite length_fmap, <- Hlen.
    assert (i ∈ argsort (Qopp <$> p)) as Hin.
    { unfold idx, py_slice_to in Hi.
      destruct (decide _);
        apply elem_of_take in Hi as (j & Hj & _);
        by eapply list_elem_of_lookup_2. }
    rewrite Hperm in Hin. apply elem_of_seq in Hin. lia. }
  exists ((λ i, default ""%string (cs !! i)) <$> idx). split.
  - unfold DiffChoiceRoute.sample_choice.
    unfold bind at 1. unfold get at 1. fold idx.
    apply comprehension_pure. intros i Hi.
    unfold DiffChoiceRoute.choice_at, DiffChoiceRoute.choices.
    unfold bind at 1. unfold get at 1. fold cs.
    by destruct (Hrange i Hi) as [c ->].
  - apply Forall2_fmap_r, Forall_Forall2_diag, Forall_forall.
    intros i Hi. simpl. by destruct (Hrange i Hi) as [c ->].
Qed.

(** Names and positions of a dictionary with distinct keys. *)
Lemma names_of_positions (d : list (string * nn_Module))
    (idx : list nat) (names : list string) :
  dict_wf d →
  Forall2 (λ i name, keys d !! i = Some name) idx names →
  ∀ i name module, d !! i = Some (name, module) →
    name ∈ names ↔ i ∈ idx.
Proof.
  intros Hwf Hnames i name module Hi.
  assert (keys d !! i = Some name) as Hk.
  { unfold keys. by rewrite list_lookup_fmap, Hi. }
  split.
  - intros Hin. apply list_elem_of_lookup_1 in Hin as [j Hj].
    destruct (Forall2_lookup_r _ _ _ _ _ Hnames Hj) as (i' & Hi' & Hk').
    assert (i' = i) as ->; [|by eapply list_elem_of_lookup_2].
    by eapply NoDup_lookup.
  - intros Hin. apply list_elem_of_lookup_1 in Hin as [j Hj].
    destruct (Forall2_lookup_l _ _ _ _ _ Hnames Hj) as (name' & Hn & Hk').
    assert (name' = name) as -> by congruence.
    by eapply list_elem_of_lookup_2.
Qed.
End choose.

(** X13. [DiffMutableOP.sample_choice(arch_param)] on a parameter with
    one entry per candidate returns the name of the candidate at the
    position [torch.argmax] reports, a position whose entry no other entry
    exceeds, and changes nothing. When the reported position is not below
    the number of candidates (a parameter longer than the candidate list,
    as after fixing) it raises [IndexError]. *)
Theorem X13_op_sample_choice `{Torch} `{TorchArgmax} (p : list Q)
    (s : pystate DiffMutableOP.t) :
  length p = length (DiffMutableOP._candidates (self s)) →
  argmax_spec p (argmax p) →
  (∃ name module,
     DiffMutableOP._candidates (self s) !! argmax p = Some (name, module) ∧
     DiffMutableOP_sample.sample_choice p s = (Ok name, s) ∧
     ∀ j, j < length (DiffMutableOP._candidates (self s)) →
       (nth j p 0 <= nth (argmax p) p 0)%Q) ∧
  (∀ p', length (DiffMutableOP._candidates (self s)) ≤ argmax p' →
     DiffMutableOP_sample.sample_choice p' s = (Raise IndexError, s)).
Proof.
  intros Hlen [Hlt Hmax]. split.
  - rewrite Hlen in Hlt, Hmax.
    apply lookup_lt_is_Some in Hlt as [[name module] Hi].
    exists name, module. split; [done|]. split; [|done].
    rewrite op_sample_choice_run. unfold keys.
    by rewrite list_lookup_fmap, Hi.
  - intros p' Hge. rewrite op_sample_choice_run.
    rewrite lookup_ge_None_2; [done|].
    unfold keys. by rewrite length_fmap.
Qed.

Lemma demo_argmax_spec :
  argmax_spec [1 # 10; 9 # 10; 1 # 2]%Q
    (argmax (TorchArgmax:=DemoMore.torch_argmax) [1 # 10; 9 # 10; 1 # 2]%Q).
Proof.
  split; [simpl; lia|]. intros j Hj.
  destruct j as [|[|[|j]]]; simpl in *; try lia; unfold Qle; simpl; lia.
Qed.

Lemma X13_op_sample_choice_witness :
  DiffMutableOP_sample.sample_choice [1 # 10; 9 # 10; 1 # 2]%Q
    (Demo.start (Demo.op DiffMutableOP.IsDiffMutableOP))
  = (Ok "b"%string, Demo.start (Demo.op DiffMutableOP.IsDiffMutableOP)).
Proof.
  destruct (X13_op_sample_choice (H:=Demo.torch) [1 # 10; 9 # 10; 1 # 2]%Q
              (Demo.start (Demo.op DiffMutableOP.IsDiffMutableOP)))
    as [(name & module & Hi & Hrun & _) _].
  - reflexivity.
  - exact demo_argmax_spec.
  - vm_compute in Hi. injection Hi as <- _. exact Hrun.
Defined.

(** X14. Search, then fix, for a [DiffMutableOP]: when the name returned
    by [sample_choice] is handed to [fix_chosen], one candidate is left,
    the one with a largest parameter entry, and from then on [forward],
    whatever parameter it is given, returns that candidate's output on the
    input (added to the [0] that [sum] starts from). *)
Theorem X14_op_search_then_fix `{Torch} `{TorchArgmax}
    (o : DiffMutableOP.t) (p : list Q) (w : world) (log : list string) :
  dict_wf (DiffMutableOP._candidates o) →
  DiffMutableOP._is_fixed o = false →
  length p = length (DiffMutableOP._candidates o) →
  argmax_spec p (argmax p) →
  ∃ name module o',
    DiffMutableOP._candidates o !! argmax p = Some (name, module) ∧
    (∀ j, j < length p → (nth j p 0 <= nth (argmax p) p 0)%Q) ∧
    DiffMutableOP_sample.sample_choice p (PyState o w log)
      = (Ok name, PyState o w log) ∧
    DiffMutableOP.fix_chosen (PyStr name) (PyState o w log)
      = (Ok tt, PyState o' w log) ∧
    length (DiffMutableOP._candidates o') = 1 ∧
    ∀ x arch_param w' log',
      DiffMutableModule.forward x arch_param (PyState o' w' log')
      = match module x w' with
        | (Ok out, w'') =>
            (Ok (py_add py_zero out), PyState o' w'' (log' ++ [name]))
        | (Raise e, w'') => (Raise e, PyState o' w'' (log' ++ [name]))
        end.
Proof.
  intros Hwf Hunfixed Hlen [Hlt Hmax].
  assert (argmax p < length (DiffMutableOP._candidates o)) as Hlt'
    by by rewrite <- Hlen.
  apply lookup_lt_is_Some in Hlt' as [[name module] Hi].
  assert (name ∈ keys (DiffMutableOP._candidates o)) as Hin.
  { unfold keys. apply list_elem_of_fmap. exists (name, module).
    split; [done|]. by eapply list_elem_of_lookup_2. }
  exists name, module. eexists.
  split; [done|]. split; [done|]. split.
  { rewrite op_sample_choice_run. simpl. unfold keys.
    by rewrite list_lookup_fmap, Hi. }
  split; [by apply op_fix_chosen_run|]. simpl. split.
  - destruct (pruned_keys (DiffMutableOP._candidates o) [name] Hwf)
      as (Hsize & _).
    { intros k ->%list_elem_of_singleton. done. }
    cbv zeta in Hsize. rewrite Hsize.
    rewrite list_to_set_cons, list_to_set_nil, union_empty_r_L.
    apply size_singleton.
  - intros x arch_param w' log'.
    unfold DiffMutableModule.forward, BaseMutable.is_fixed.
    unfold bind at 1. unfold get at 1. simpl.
    rewrite (op_forward_fixed_run (DiffMutableOP._candidates o) [name]).
    + rewrite (chosen_terms_one _ (argmax p) name module) by done.
      unfold sum_of_terms. simpl.
      by destruct (module x w') as [[out|e] w''].
    + done.
    + simpl. intros c ->%list_elem_of_singleton. split.
      * by apply dict_get_is_Some.
      * assert (name ∈ [name]) as Hone by (by apply list_elem_of_singleton).
        exact (dict_get_filter (.∈ [name]) name _ Hone).
Qed.

Lemma X14_op_search_then_fix_witness :
  ∃ o' : DiffMutableOP.t,
    DiffMutableOP.fix_chosen (PyStr "b")
      (Demo.start (Demo.op DiffMutableOP.IsDiffMutableOP))
      = (Ok tt, PyState o' 0 []) ∧
    DiffMutableModule.forward 3%Q None (PyState o' 0 [])
      = (Ok 30%Q, PyState o' 1 ["b"%string]).
Proof.
  destruct (X14_op_search_then_fix (H:=Demo.torch)
              (Demo.op DiffMutableOP.IsDiffMutableOP)
              [1 # 10; 9 # 10; 1 # 2]%Q 0 [])
    as (name & module & o' & Hi & _ & _ & Hfix & _ & Hrun).
  - exact demo_edges_wf.
  - reflexivity.
  - reflexivity.
  - exact demo_argmax_spec.
  - vm_compute in Hi. injection Hi as <- <-.
    exists o'. split; [exact Hfix|].
    etrans; [exact (Hrun 3%Q None 0 [])|]. vm_compute. reflexivity.
Defined.

(** X15. Search, then fix, for a [DiffChoiceRoute] with
    [num_chosen >= 0]: when the names returned by [sample_choice] are
    handed to [fix_chosen], [forward_fixed] (and [forward], whatever
    parameter it is given) returns the sum of the edges at the first
    [num_chosen] positions of the descending order of the parameter, each
    applied to the input at its own position; no edge left out has a
    larger parameter entry than one kept. *)
Theorem X15_route_search_then_fix `{Torch} (r : DiffChoiceRoute.t)
    (p : list Q) (inputs : list tensor) (w : world) (log : list string) :
  dict_wf (DiffChoiceRoute._candidates r) →
  DiffChoiceRoute._is_fixed r = false →
  (0 ≤ DiffChoiceRoute.num_chosen r)%Z →
  length p = length (DiffChoiceRoute._candidates r) →
  argsort_spec (Qopp <$> p) (argsort (Qopp <$> p)) →
  ∃ idx names r' terms,
    DiffChoiceRoute.sample_choice p (PyState r w log)
      = (Ok names, PyState r w log) ∧
    DiffChoiceRoute.fix_chosen names (PyState r w log)
      = (Ok tt, PyState r' w log) ∧
    length idx = Z.to_nat (DiffChoiceRoute.num_chosen r)
                   `min` length (DiffChoiceRoute._candidates r) ∧
    NoDup idx ∧
    (∀ a c, a ∈ idx → c < length (DiffChoiceRoute._candidates r) →
       c ∉ idx → (nth c p 0 <= nth a p 0)%Q) ∧
    (∀ t, t ∈ terms ↔
       ∃ i name module x,
         i ∈ idx ∧
         DiffChoiceRoute._candidates r !! i = Some (name, module) ∧
         inputs !! i = Some x ∧ t = Term name module x None) ∧
    ∀ w' log' arch_param,
      DiffMutableModule.forward inputs arch_param (PyState r' w' log')
      = sum_of_terms terms (PyState r' w' log').
Proof.
  intros Hwf Hunfixed Hn Hlen Hspec.
  destruct (sample_choice_run p (PyState r w log) Hn Hlen Hspec)
    as (names & Hrun & Hnames). simpl in Hnames.
  apply argsort_neg_descending in Hspec as [Hperm Hdesc].
  destruct (top_of_descending p _
              (Z.to_nat (DiffChoiceRoute.num_chosen r)) Hperm Hdesc)
    as (Hl & Hnd & _ & _ & Htop).
  eexists _, names, _,
    (chosen_edge_terms (DiffChoiceRoute._candidates r) names inputs).
  split; [exact Hrun|].
  split; [by apply route_fix_chosen_run|].
  rewrite <- Hlen. split; [exact Hl|]. split; [exact Hnd|].
  split; [exact Htop|]. split.
  - intros t. rewrite chosen_edge_terms_spec. split.
    + intros (i & name & module & x & Hi & Hx & Hin & ->).
      exists i, name, module, x. split; [|done].
      by apply (names_of_positions _ _ _ Hwf Hnames i name module).
    + intros (i & name & module & x & Hin & Hi & Hx & ->).
      exists i, name, module, x. split; [done|]. split; [done|].
      split; [|done].
      by apply (names_of_positions _ _ _ Hwf Hnames i name module).
  - intros w' log' arch_param.
    unfold DiffMutableModule.forward, BaseMutable.is_fixed.
    unfold bind at 1. unfold get at 1. simpl.
    apply route_forward_fixed_run; simpl; try done.
    intros c Hc. exact (dict_get_filter (.∈ names) c _ Hc).
Qed.

Lemma X15_route_search_then_fix_witness :
  ∃ r' : DiffChoiceRoute.t,
    DiffChoiceRoute.fix_chosen ["b"; "c"]%string
      (Demo.start (Demo.route true))
      = (Ok tt, PyState r' 0 []) ∧
    DiffChoiceRoute.forward_fixed [1; 2; 3]%Q (PyState r' 0 [])
      = (Ok 320%Q, PyState r' 2 ["b"; "c"]%string).
Proof.
  destruct (X15_route_search_then_fix (H:=Demo.torch) (Demo.route true)
              [1 # 10; 9 # 10; 1 # 2]%Q [1; 2; 3]%Q 0 [])
    as (idx & names & r' & terms & Hsample & Hfix & _).
  - exact demo_edges_wf.
  - reflexivity.
  - simpl. lia.
  - reflexivity.
  - exact demo_argsort_spec.
  - vm_compute in Hsample. injection Hsample as <-.
    exists r'. split; [exact Hfix|].
    vm_compute in Hfix. injection Hfix as <-. vm_compute. reflexivity.
Defined.

(** X16. A negative [num_chosen] is taken as a Python slice bound:
    [sample_choice] then returns the names at all but the last
    [-num_chosen] positions of the descending order (none when
    [-num_chosen] is at least the number of candidates), still the
    candidates with the largest parameter entries, in descending order. *)
Theorem X16_route_sample_choice_negative `{Torch} (r : DiffChoiceRoute.t)
    (p : list Q) (w : world) (log : list string) :
  (DiffChoiceRoute.num_chosen r < 0)%Z →
  length p = length (DiffChoiceRoute._candidates r) →
  argsort_spec (Qopp <$> p) (argsort (Qopp <$> p)) →
  ∃ idx names,
    DiffChoiceRoute.sample_choice p (PyState r w log)
      = (Ok names, PyState r w log) ∧
    Forall2 (λ i name, keys (DiffChoiceRoute._candidates r) !! i = Some name)
      idx names ∧
    length idx = length (DiffChoiceRoute._candidates r)
                 - Z.to_nat (- DiffChoiceRoute.num_chosen r) ∧
    NoDup idx ∧
    (∀ i j a b, i < j → idx !! i = Some a → idx !! j = Some b →
       (nth b p 0 <= nth a p 0)%Q) ∧
    (∀ a c, a ∈ idx → c < length (DiffChoiceRoute._candidates r) →
       c ∉ idx → (nth c p 0 <= nth a p 0)%Q).
Proof.
  intros Hn Hlen Hspec.
  destruct (sample_choice_slice p (PyState r w log) Hlen Hspec)
    as (names & Hrun & Hnames). simpl in Hnames.
  apply argsort_neg_descending in Hspec as [Hperm Hdesc].
  assert (length (argsort (Qopp <$> p)) = length p) as Hfull
    by (by rewrite Hperm, length_seq).
  unfold py_slice_to in Hnames. rewrite decide_False in Hnames by lia.
  destruct (top_of_descending p _
              (length (argsort (Qopp <$> p))
               - Z.to_nat (- DiffChoiceRoute.num_chosen r)) Hperm Hdesc)
    as (Hl & Hnd & _ & Hd & Htop).
  eexists _, names. split; [exact Hrun|]. split; [exact Hnames|].
  rewrite <- Hlen. split; [|done]. rewrite Hl, Hfull. lia.
Qed.

Lemma X16_route_sample_choice_negative_witness :
  DiffChoiceRoute.sample_choice [1 # 10; 9 # 10; 1 # 2]%Q
    (Demo.start (DiffChoiceRoute.Build _ Demo.edges false None None
                   false (-2)))
  = (Ok ["b"%string],
     Demo.start (DiffChoiceRoute.Build _ Demo.edges false None None
                   false (-2))).
Proof.
  destruct (X16_route_sample_choice_negative (H:=Demo.torch)
              (DiffChoiceRoute.Build _ Demo.edges false None None false (-2))
              [1 # 10; 9 # 10; 1 # 2]%Q 0 [])
    as (idx & names & Hrun & _).
  - simpl. lia.
  - reflexivity.
  - exact demo_argsort_spec.
  - vm_compute in Hrun. injection Hrun as <-. vm_compute. reflexivity.
Defined.

(** ** [OneHotMutableOP] and [GumbelChoiceRoute] *)

(** X17. [OneHotMutableOP.forward_arch_param(x, arch_param)] with a
    parameter draws one sample of weights from the softmax of the
    parameter, stores it in [self.arch_weights], and returns the weighted
    sum over the candidates with those weights; candidates whose sampled
    weight is not strictly positive are not invoked. [forward] on an
    unfixed [OneHotMutableOP] does the same. Nothing else of the instance
    changes. *)
Theorem X17_onehot_forward `{Torch} (x : tensor) (p : list Q)
    (s : pystate DiffMutableOP.t) :
  DiffMutableOP.class_of (self s) = DiffMutableOP.IsOneHotMutableOP →
  DiffMutableOP._is_fixed (self s) = false →
  let sample := one_hot_sample (softmax p) (env s) in
  let o' := DiffMutableOP.set_arch_weights (Some sample.1) (self s) in
  let terms := weighted_terms sample.1 (DiffMutableOP._candidates (self s)) x in
  OneHotMutableOP.forward_arch_param x (Some p) s
    = sum_of_terms terms (PyState o' sample.2 (calls s)) ∧
  DiffMutableModule.forward x (Some p) s
    = sum_of_terms terms (PyState o' sample.2 (calls s)) ∧
  (∀ t, t ∈ terms ↔
     ∃ i name module weight,
       DiffMutableOP._candidates (self s) !! i = Some (name, module) ∧
       sample.1 !! i = Some weight ∧ Qgt0 weight = true ∧
       t = Term name module x (Some weight)) ∧
  DiffMutableOP.arch_weights o' = Some sample.1 ∧
  DiffMutableOP._candidates o' = DiffMutableOP._candidates (self s) ∧
  DiffMutableOP._chosen o' = DiffMutableOP._chosen (self s) ∧
  DiffMutableOP._is_fixed o' = false.
Proof.
  intros Hcls Hunfixed sample o' terms.
  assert (OneHotMutableOP.forward_arch_param x (Some p) s
          = sum_of_terms terms (PyState o' sample.2 (calls s))) as Hrun.
  { unfold OneHotMutableOP.forward_arch_param,
      DiffMutableModule.compute_arch_probs, OneHotMutableOP.sample_weights.
    unfold bind at 1. unfold ret at 1.
    unfold bind at 1. fold sample. destruct sample as [weights e] eqn:Hs.
    simpl.
    unfold bind at 1. unfold modify at 1. simpl.
    unfold bind at 1. unfold get at 1. simpl.
    unfold bind at 1. unfold get at 1. simpl.
    unfold bind at 1. rewrite weighted_outputs_run. simpl.
    unfold sum_of_terms, terms, o'. simpl.
    by destruct (eval_terms _ e) as [[[vs|err] w'] log]. }
  split; [done|]. split.
  - unfold DiffMutableModule.forward, BaseMutable.is_fixed.
    unfold bind at 1. unfold get at 1. simpl. rewrite Hunfixed.
    unfold bind at 1. unfold get at 1. simpl. by rewrite Hcls.
  - split; [intros t; apply weighted_terms_spec|]. by repeat split.
Qed.

Lemma X17_onehot_forward_witness :
  DiffMutableModule.forward 1%Q (Some [0; 200; 0]%Q)
    (Demo.start (Demo.op DiffMutableOP.IsOneHotMutableOP))
  = (Ok 10%Q,
     PyState (DiffMutableOP.set_arch_weights (Some [0; 1; 0]%Q)
                (Demo.op DiffMutableOP.IsOneHotMutableOP))
       2 ["b"%string]).
Proof.
  destruct (X17_onehot_forward (H:=Demo.torch) 1%Q [0; 200; 0]%Q
              (Demo.start (Demo.op DiffMutableOP.IsOneHotMutableOP)))
    as (_ & Hrun & _); [reflexivity..|].
  etrans; [exact Hrun|]. vm_compute. reflexivity.
Defined.

Section gumbel.
Context `{TorchGumbel}.

Lemma gumbel_eta (g : GumbelChoiceRoute.t) :
  GumbelChoiceRoute.Build _ (GumbelChoiceRoute.route g)
    (GumbelChoiceRoute.tau g) (GumbelChoiceRoute.hard g) = g.
Proof. by destruct g. Qed.

(** An inherited method that is a sum of terms is the same sum on the
    instance of the subclass. *)
Lemma inherited_sum_of_terms (c : M DiffChoiceRoute.t value)
    (ts : list term) (s : pystate GumbelChoiceRoute.t) :
  c (PyState (GumbelChoiceRoute.route (self s)) (env s) (calls s))
    = sum_of_terms ts
        (PyState (GumbelChoiceRoute.route (self s)) (env s) (calls s)) →
  GumbelChoiceRoute.inherited c s = sum_of_terms ts s.
Proof.
  intros Hc. unfold GumbelChoiceRoute.inherited. rewrite Hc.
  unfold sum_of_terms. simpl.
  destruct (eval_terms ts (env s)) as [[[vs|e] w] log]; simpl;
    by rewrite gumbel_eta.
Qed.

Lemma gumbel_forward_weighted_run (x : list tensor) (p : list Q)
    (s : pystate GumbelChoiceRoute.t) :
  let r := GumbelChoiceRoute.route (self s) in
  length x = length (DiffChoiceRoute._candidates r) →
  DiffChoiceRoute._with_arch_param r = true →
  let sample := gumbel_softmax p (GumbelChoiceRoute.tau (self s))
                  (GumbelChoiceRoute.hard (self s)) (env s) in
  GumbelChoiceRoute.forward_arch_param x (Some p) s
  = sum_of_terms
      (weighted_edge_terms sample.1 (DiffChoiceRoute._candidates r) x)
      (PyState (self s) sample.2 (calls s)).
Proof.
  intros r Hlen Hmode sample.
  unfold GumbelChoiceRoute.forward_arch_param, sum_of_terms,
    GumbelChoiceRoute.compute_arch_probs.
  unfold bind at 1. unfold get at 1. fold r.
  unfold bind at 1. rewrite bool_decide_true by done.
  unfold py_assert, ret at 1.
  unfold bind at 1. unfold get at 1. fold r. rewrite Hmode.
  unfold bind at 1. fold sample. destruct sample as [probs e]. simpl.
  unfold bind at 1.
  rewrite (for_fold_terms (self s)
             (λ '(prob, ((name, module), input)),
                if Qgt0 prob then Some (Term name module input (Some prob))
                else None)
             (λ l v, l ++ [v])); [| |done].
  - rewrite weighted_edge_terms_zip. simpl.
    destruct (eval_terms _ e) as [[[vs|err] w] log];
      unfold ret; by rewrite ?fold_left_snoc.
  - intros acc [prob [[name module] input]] s' _ _. by destruct (Qgt0 prob).
Qed.
End gumbel.

(** X18. In differentiable mode, with as many inputs as edges,
    [GumbelChoiceRoute.forward_arch_param(inputs, arch_param)] draws one
    Gumbel-softmax sample from the parameter, with the temperature and
    the [hard] flag the instance holds at that moment, before any edge is
    invoked, and returns the weighted sum over the edges with the sampled
    weights (edges whose weight is not strictly positive are skipped).
    After [set_temperature(tau)] the sample is drawn with [tau];
    [set_temperature] changes nothing but the temperature. *)
Theorem X18_gumbel_weighted_sum `{TorchGumbel} (x : list tensor)
    (p : list Q) (s : pystate GumbelChoiceRoute.t) :
  let g := self s in
  let edges := DiffChoiceRoute._candidates (GumbelChoiceRoute.route g) in
  length x = length edges →
  DiffChoiceRoute._with_arch_param (GumbelChoiceRoute.route g) = true →
  (let sample := gumbel_softmax p (GumbelChoiceRoute.tau g)
                   (GumbelChoiceRoute.hard g) (env s) in
   GumbelChoiceRoute.forward_arch_param x (Some p) s
   = sum_of_terms (weighted_edge_terms sample.1 edges x)
       (PyState g sample.2 (calls s))) ∧
  (∀ tau',
     let g' := GumbelChoiceRoute.Build _ (GumbelChoiceRoute.route g) tau'
                 (GumbelChoiceRoute.hard g) in
     let sample := gumbel_softmax p tau' (GumbelChoiceRoute.hard g)
                     (env s) in
     GumbelChoiceRoute.set_temperature tau' s
       = (Ok tt, PyState g' (env s) (calls s)) ∧
     (let! _ := GumbelChoiceRoute.set_temperature tau' in
      GumbelChoiceRoute.forward_arch_param x (Some p)) s
     = sum_of_terms (weighted_edge_terms sample.1 edges x)
         (PyState g' sample.2 (calls s))).
Proof.
  intros g edges Hlen Hmode. split.
  - by apply gumbel_forward_weighted_run.
  - intros tau' g' sample. split; [done|].
    unfold bind at 1. unfold GumbelChoiceRoute.set_temperature at 1.
    unfold modify at 1.
    by rewrite gumbel_forward_weighted_run.
Qed.

Lemma X18_gumbel_weighted_sum_witness :
  GumbelChoiceRoute.forward_arch_param [1; 2; 3]%Q (Some [0; 200; 0]%Q)
    (Demo.start (DemoMore.gumbel true))
  = (Ok 20%Q, PyState (DemoMore.gumbel true) 2 ["b"%string]).
Proof.
  destruct (X18_gumbel_weighted_sum (H0:=DemoMore.torch_gumbel)
              [1; 2; 3]%Q [0; 200; 0]%Q (Demo.start (DemoMore.gumbel true)))
    as (Hrun & _); [reflexivity..|].
  etrans; [exact Hrun|]. vm_compute. reflexivity.
Defined.

(** X19. A [GumbelChoiceRoute] draws no sample when it need not. With a
    wrong number of inputs, [forward_arch_param] raises [AssertionError]
    with nothing changed, the generator state included. In
    non-differentiable mode, with as many inputs as edges, it ignores the
    parameter, the temperature and the [hard] flag and returns the
    unweighted sum over all edges. *)
Theorem X19_gumbel_without_sample `{TorchGumbel} (x : list tensor)
    (arch_param : option (list Q)) (s : pystate GumbelChoiceRoute.t) :
  let r := GumbelChoiceRoute.route (self s) in
  (length x ≠ length (DiffChoiceRoute._candidates r) →
   GumbelChoiceRoute.forward_arch_param x arch_param s
   = (Raise AssertionError, s)) ∧
  (length x = length (DiffChoiceRoute._candidates r) →
   DiffChoiceRoute._with_arch_param r = false →
   GumbelChoiceRoute.forward_arch_param x arch_param s
   = sum_of_terms (all_edge_terms (DiffChoiceRoute._candidates r) x) s).
Proof.
  intros r. split.
  - intros Hlen. unfold GumbelChoiceRoute.forward_arch_param.
    unfold bind at 1. unfold get at 1. fold r.
    unfold bind at 1. by rewrite bool_decide_false.
  - intros Hlen Hmode. unfold GumbelChoiceRoute.forward_arch_param.
    unfold bind at 1. unfold get at 1. fold r.
    unfold bind at 1. rewrite bool_decide_true by done.
    unfold py_assert, ret at 1.
    unfold bind at 1. unfold get at 1. fold r. rewrite Hmode.
    unfold GumbelChoiceRoute.forward_all.
    apply inherited_sum_of_terms. by apply route_forward_all_run.
Qed.

(** X20. The constructor of [GumbelChoiceRoute] leaves [num_chsoen] to
    the default of its parent: every instance it builds has
    [num_chosen = 2], whatever the other arguments, along with the given
    edges, the given or default temperature 1.0 and [hard] flag [True],
    and it is unfixed. Its [sample_choice] therefore returns the two
    candidates with the largest parameter entries (the only one when
    there is one edge), in descending order. With no edge the constructor
    raises [AssertionError]. *)
Theorem X20_gumbel_init `{TorchGumbel} (edges : list (string * nn_Module))
    (tau : option Q) (hard with_arch_param : option bool) :
  (edges = [] →
   GumbelChoiceRoute.__init__ edges tau hard with_arch_param
   = Raise AssertionError) ∧
  (edges ≠ [] →
   ∃ g,
     GumbelChoiceRoute.__init__ edges tau hard with_arch_param = Ok g ∧
     DiffChoiceRoute.num_chosen (GumbelChoiceRoute.route g) = 2%Z ∧
     DiffChoiceRoute._candidates (GumbelChoiceRoute.route g) = edges ∧
     DiffChoiceRoute._is_fixed (GumbelChoiceRoute.route g) = false ∧
     DiffChoiceRoute._with_arch_param (GumbelChoiceRoute.route g)
       = default false with_arch_param ∧
     GumbelChoiceRoute.tau g = default 1%Q tau ∧
     GumbelChoiceRoute.hard g = default true hard ∧
     ∀ (p : list Q) w log,
       length p = length edges →
       argsort_spec (Qopp <$> p) (argsort (Qopp <$> p)) →
       ∃ idx names,
         GumbelChoiceRoute.sample_choice p (PyState g w log)
           = (Ok names, PyState g w log) ∧
         Forall2 (λ i name, keys edges !! i = Some name) idx names ∧
         length idx = 2 `min` length edges ∧
         NoDup idx ∧
         (∀ i j a b, i < j → idx !! i = Some a → idx !! j = Some b →
            (nth b p 0 <= nth a p 0)%Q) ∧
         (∀ a c, a ∈ idx → c < length edges → c ∉ idx →
            (nth c p 0 <= nth a p 0)%Q)).
Proof.
  split.
  - intros ->. done.
  - intros Hne.
    unfold GumbelChoiceRoute.__init__, DiffChoiceRoute.__init__.
    rewrite bool_decide_true by (destruct edges; [done|simpl; lia]).
    eexists. split; [done|]. simpl. do 6 (split; [done|]).
    intros p w log Hlen Hspec.
    destruct (sample_choice_run p
                (PyState (DiffChoiceRoute.Build _ edges false None None
                            (default false with_arch_param) 2) w log))
      as (names & Hrun & Hnames); [done|done|done|]. simpl in Hnames.
    apply argsort_neg_descending in Hspec as [Hperm Hdesc].
    destruct (top_of_descending p _ 2 Hperm Hdesc)
      as (Hl & Hnd & _ & Hd & Htop).
    eexists _, names. split.
    { unfold GumbelChoiceRoute.sample_choice, GumbelChoiceRoute.inherited.
      simpl. by rewrite Hrun. }
    split; [exact Hnames|]. rewrite <- Hlen. by repeat split.
Qed.

Lemma X20_gumbel_init_witness :
  ∃ g,
    GumbelChoiceRoute.__init__ Demo.edges None None (Some true) = Ok g ∧
    GumbelChoiceRoute.sample_choice [1 # 10; 9 # 10; 1 # 2]%Q
      (Demo.start g)
    = (Ok ["b"; "c"]%string, Demo.start g).
Proof.
  destruct (proj2 (X20_gumbel_init (H0:=DemoMore.torch_gumbel)
                     Demo.edges None None (Some true)))
    as (g & Hinit & _ & _ & _ & _ & _ & _ & _); [done|].
  exists g. split; [exact Hinit|].
  vm_compute in Hinit. injection Hinit as <-. vm_compute. reflexivity.
Defined.

Lemma X19_gumbel_without_sample_witness :
  GumbelChoiceRoute.forward_arch_param [1; 2]%Q (Some [0; 200; 0]%Q)
    (Demo.start (DemoMore.gumbel true))
    = (Raise AssertionError, Demo.start (DemoMore.gumbel true)) ∧
  GumbelChoiceRoute.forward_arch_param [1; 2; 3]%Q (Some [0; 200; 0]%Q)
    (Demo.start (DemoMore.gumbel false))
    = (Ok 321%Q, PyState (DemoMore.gumbel false) 3 ["a"; "b"; "c"]%string).
Proof.
  split.
  - apply (proj1 (X19_gumbel_without_sample (H0:=DemoMore.torch_gumbel)
                    [1; 2]%Q (Some [0; 200; 0]%Q)
                    (Demo.start (DemoMore.gumbel true)))).
    simpl. lia.
  - etrans.
    + apply (proj2 (X19_gumbel_without_sample (H0:=DemoMore.torch_gumbel)
                      [1; 2; 3]%Q (Some [0; 200; 0]%Q)
                      (Demo.start (DemoMore.gumbel false)))); reflexivity.
    + vm_compute. reflexivity.
Defined.

(** ** [set_forward_args] *)

Section forward_args.
Context `{Torch}.

Lemma method_sum_of_terms {Self} (c : M Self value) (ts : list term)
    (s : pystate (ForwardArgs.t Self)) :
  c (PyState (ForwardArgs.obj (self s)) (env s) (calls s))
    = sum_of_terms ts
        (PyState (ForwardArgs.obj (self s)) (env s) (calls s)) →
  ForwardArgs.method c s = sum_of_terms ts s.
Proof.
  intros Hc. unfold ForwardArgs.method. rewrite Hc.
  unfold sum_of_terms. simpl.
  destruct (eval_terms ts (env s)) as [[[vs|e] w] log]; simpl;
    by destruct s as [[? ?] ? ?].
Qed.
End forward_args.

(** X21. [set_forward_args] on a [DiffMutableOP] changes what [forward]
    does without an explicit parameter, and nothing else. On an unfixed
    instance on which it was never called, [forward(x)] is the dense sum
    over all candidates. After [set_forward_args(a)], [forward(x)] is the
    weighted sum with the softmax of the contents that the parameter [a]
    has at the time of the call; a second [set_forward_args(b)] replaces
    [a] by [b]; and a parameter passed by keyword at the call takes
    precedence over the bound one. *)
Theorem X21_set_forward_args `{Torch} (o : DiffMutableOP.t)
    (bound : option (option nat)) (params : gmap nat (list Q))
    (x : tensor) (w : world) (log : list string) :
  DiffMutableOP.class_of o = DiffMutableOP.IsDiffMutableOP →
  DiffMutableOP._is_fixed o = false →
  let s0 := PyState (ForwardArgs.Build o None) w log in
  let s := PyState (ForwardArgs.Build o bound) w log in
  let weighted ref :=
    weighted_terms (softmax (params !!! ref)) (DiffMutableOP._candidates o) x in
  ForwardArgs.call_forward params x None s0
    = sum_of_terms (all_terms (DiffMutableOP._candidates o) x) s0 ∧
  (∀ a,
     ForwardArgs.set_forward_args (Some a) s
       = (Ok tt, PyState (ForwardArgs.Build o (Some (Some a))) w log) ∧
     (let! _ := ForwardArgs.set_forward_args (Some a) in
      ForwardArgs.call_forward params x None) s
     = sum_of_terms (weighted a)
         (PyState (ForwardArgs.Build o (Some (Some a))) w log) ∧
     (∀ b,
        (let! _ := ForwardArgs.set_forward_args (Some a) in
         let! _ := ForwardArgs.set_forward_args (Some b) in
         ForwardArgs.call_forward params x None) s
        = sum_of_terms (weighted b)
            (PyState (ForwardArgs.Build o (Some (Some b))) w log)) ∧
     (∀ c,
        (let! _ := ForwardArgs.set_forward_args (Some a) in
         ForwardArgs.call_forward params x (Some (Some c))) s
        = sum_of_terms (weighted c)
            (PyState (ForwardArgs.Build o (Some (Some a))) w log))).
Proof.
  intros Hcls Hunfixed s0 s weighted.
  assert (∀ kw arg,
            ForwardArgs.method
              (DiffMutableModule.forward x (Some (params !!! arg)))
              (PyState (ForwardArgs.Build o kw) w log)
            = sum_of_terms (weighted arg)
                (PyState (ForwardArgs.Build o kw) w log)) as Hweighted.
  { intros kw arg. apply method_sum_of_terms. simpl.
    unfold DiffMutableModule.forward, BaseMutable.is_fixed.
    unfold bind at 1. unfold get at 1. simpl. rewrite Hunfixed.
    unfold bind at 1. unfold get at 1. simpl. rewrite Hcls.
    apply (op_forward_arch_param_run x (params !!! arg)
             (PyState o w log)). }
  split.
  - unfold ForwardArgs.call_forward. unfold bind at 1. unfold get at 1.
    simpl. apply method_sum_of_terms. simpl.
    unfold DiffMutableModule.forward, BaseMutable.is_fixed.
    unfold bind at 1. unfold get at 1. simpl. rewrite Hunfixed.
    unfold bind at 1. unfold get at 1. simpl. rewrite Hcls.
    apply (op_forward_all_run x (PyState o w log)).
  - intros a. split; [done|]. split; [|split].
    + unfold bind at 1. unfold ForwardArgs.set_forward_args at 1.
      unfold modify at 1. simpl.
      unfold ForwardArgs.call_forward. unfold bind at 1. unfold get at 1.
      simpl. apply Hweighted.
    + intros b.
      unfold bind at 1. unfold ForwardArgs.set_forward_args at 1.
      unfold modify at 1. simpl.
      unfold bind at 1. unfold ForwardArgs.set_forward_args at 1.
      unfold modify at 1. simpl.
      unfold ForwardArgs.call_forward. unfold bind at 1. unfold get at 1.
      simpl. apply Hweighted.
    + intros c.
      unfold bind at 1. unfold ForwardArgs.set_forward_args at 1.
      unfold modify at 1. simpl.
      unfold ForwardArgs.call_forward. unfold bind at 1. unfold get at 1.
      simpl. apply Hweighted.
Qed.

Lemma X21_set_forward_args_witness :
  let params : gmap nat (list Q) := {[ 7 := [0; 200; 0]%Q ]} in
  let s := PyState
             (ForwardArgs.Build (Demo.op DiffMutableOP.IsDiffMutableOP) None)
             0 [] in
  ForwardArgs.call_forward params 1%Q None s
    = (Ok 111%Q, PyState (self s) 3 ["a"; "b"; "c"]%string) ∧
  (let! _ := ForwardArgs.set_forward_args (Some 7) in
   ForwardArgs.call_forward params 1%Q None) s
    = (Ok 10%Q,
       PyState (ForwardArgs.Build (Demo.op DiffMutableOP.IsDiffMutableOP)
                  (Some (Some 7))) 1 ["b"%string]).
Proof.
  intros params s.
  destruct (X21_set_forward_args (H:=Demo.torch)
              (Demo.op DiffMutableOP.IsDiffMutableOP) None params 1%Q 0 [])
    as (Hdense & Hbound); [reflexivity..|].
  split.
  - etrans; [exact Hdense|]. vm_compute. reflexivity.
  - destruct (Hbound 7) as (_ & Hrun & _).
    etrans; [exact Hrun|]. vm_compute. reflexivity.
Defined.
